(** * Webhook router: authentication gate, quota ledger and request handler

    A shallow embedding of [index.js]: the identity-store accessor
    [getUserApiKey], the quota ledger [checkQuota], the gate
    [authMiddleware] and the handler [submitAsyncAction].

    Modelling conventions.
    - A JavaScript value that may be [undefined] is an [option].
    - Credits are integers: a quota is a [Z], the integer value of the
      double that [doc.data().quota] is.  On doubles that are integers,
      [>] and [/ 2] are exact and so is [* 2] on an array length (below
      2^32); [-] rounds its result to the nearest double ([number_value]),
      which changes nothing below 2^53.  Numbers are printed as
      [Number::toString] does: all the digits below 2^53, the shortest
      digits that give the double back beyond.  Doubles that are not
      integers, infinities and NaN are not modelled.
    - The external collaborators (document store, blob store, HTTP client,
      HTTP response object, console) are a [World]: the documents, a clock,
      the chronological [trace] of the calls made to them, a schedule
      [faults] saying which of the coming fallible calls throw, and beside
      it a schedule [opaque] saying which of the errors thrown by the
      document store cannot be serialised by [JSON.stringify].
    - [async] functions are computations in the monad [M]: state passing
      over the [World], with an outcome that is a value or a thrown error.
      Awaited calls are sequenced with bind.  The one call that is NOT
      awaited, [next()] in [authMiddleware], is [detach]: its rejection
      never reaches the caller.
    - [logDebug] only prints when an environment flag is set; it is left
      out.  Its arguments are evaluated whatever the flag: the
      [JSON.stringify(error)] of the two [catch] blocks is kept, because it
      can throw. *)

From stdpp Require Import base strings gmap list pretty.

Local Open Scope string_scope.
Local Open Scope Z_scope.

(** ** Constants of the module *)

(** [const serviceCostPerLead = 2;] *)
Definition serviceCostPerLead : Z := 2.
Definition bucketName : string := "ssfs-bucket".
Definition serviceName : string := "ssfs-ethan-oct16".

(** ** Data *)

(** A document of the [subscriptions] collection. *)
Record Doc := mkDoc {
  quota : Z;
  ssfs_account_api_key : option string
}.

(** The object returned by [checkQuota]; a field left out of the object
    literal is [None]. *)
Record Decision := mkDecision {
  message : string;
  usedQuota : option Z;
  remainingQuota : option Z;
  allowed : option bool
}.

(** What [getUserApiKey] returns: an object, the stored key, or [false]. *)
Inductive KeyResult :=
| KObject (d : Decision)
| KString (s : string)
| KFalse.

(** An element of [objectData]; its content is never inspected. *)
Definition Item := string.

Record Subscription := mkSubscription { munchkinId : option string }.
Record Context := mkContext { subscription : option Subscription }.

Record Body := mkBody {
  context : option Context;
  objectData : option (list Item)
}.

Record Request := mkRequest {
  x_api_key : option string;   (* req.headers['x-api-key'] *)
  body : Body
}.

Inductive Error :=
| TypeError
| StoreError (opaque : bool)   (* opaque: [JSON.stringify] throws on it *)
| BlobError
| NetworkError.

Inductive ResBody :=
| RJson (error : string)      (* .json({ error: ... }) / .send({ error: ... }) *)
| RText (text : string).      (* .send('...') *)

Record Payload := mkPayload {
  p_filename : string;
  p_bucketName : string;
  p_path : string
}.

(** The calls made to the outside, in the order they are issued. *)
Inductive Event :=
| EGet (id : string)                         (* quotaDoc.get() *)
| EUpdate (id : string) (q : Z)              (* quotaDoc.update({ quota: q }) *)
| ESave (filename : string) (content : Body) (* file.save(JSON.stringify(jsonData)) *)
| EPost (payload : Payload)                  (* axios.post(targetUrl, payload, headers) *)
| ERespond (status : Z) (b : ResBody)        (* res.status(..).send/json(..) *)
| EConsoleError (e : Error)                  (* console.error(.., error) *)
| EUnhandledRejection (e : Error).           (* a rejected promise nobody awaits *)

Record World := mkWorld {
  docs : gmap string Doc;
  faults : list bool;
  opaque : list bool;
  now : Z;
  trace : list Event
}.

(** ** The monad of [async] code *)

Inductive Outcome (A : Type) :=
| Ret (a : A)
| Throw (e : Error).
Arguments Ret {A} a.
Arguments Throw {A} e.

Definition M (A : Type) : Type := World → Outcome A * World.

Global Instance M_ret : MRet M := λ A a w, (Ret a, w).
Global Instance M_bind : MBind M := λ A B f m w,
  match m w with
  | (Ret a, w') => f a w'
  | (Throw e, w') => (Throw e, w')
  end.

Definition throw {A} (e : Error) : M A := λ w, (Throw e, w).

(** [try { m } catch (error) { h error }] *)
Definition try_catch {A} (m : M A) (h : Error → M A) : M A := λ w,
  match m w with
  | (Ret a, w') => (Ret a, w')
  | (Throw e, w') => h e w'
  end.

(** A call to an [async] function whose promise is dropped: the callee runs,
    and when it rejects the caller is not told. *)
Definition detach (m : M ()) : M () := λ w,
  match m w with
  | (Ret _, w') => (Ret (), w')
  | (Throw e, w') =>
      (Ret (), mkWorld (docs w') (faults w') (opaque w') (now w')
                       (trace w' ++ [EUnhandledRejection e]))
  end.

Definition emit (e : Event) : M () := λ w,
  (Ret (), mkWorld (docs w) (faults w) (opaque w) (now w) (trace w ++ [e])).

(** The next entry of the schedule decides whether a fallible call throws;
    past the end of the schedule nothing fails. *)
Definition next_fault (w : World) : bool := default false (head (faults w)).

(** Whether the error of the next call, should it throw, is one that
    [JSON.stringify] cannot serialise; past the end of the schedule every
    error can be serialised. *)
Definition next_opaque (w : World) : bool := default false (head (opaque w)).

(** A fallible call takes one entry off both schedules. *)
Definition fallible (e : Error) : M () := λ w,
  let w' := mkWorld (docs w) (tail (faults w)) (tail (opaque w)) (now w) (trace w) in
  if next_fault w then (Throw e, w') else (Ret (), w').

(** A call to the document store: the error it throws is the one the
    schedule announces. *)
Definition store_call : M () := λ w, fallible (StoreError (next_opaque w)) w.

Definition get_docs : M (gmap string Doc) := λ w, (Ret (docs w), w).

Definition put_docs (ds : gmap string Doc) : M () := λ w,
  (Ret (), mkWorld ds (faults w) (opaque w) (now w) (trace w)).

(** ** The collaborators *)

(** [firestore.collection('subscriptions').doc(id).get()]: [None] when
    [doc.exists] is false. *)
Definition store_get (id : string) : M (option Doc) :=
  _ ← emit (EGet id);
  _ ← store_call;
  ds ← get_docs;
  mret (ds !! id).

(** [quotaDoc.update({ quota: q })]: the other fields of the document stay;
    updating a document that does not exist is an error (a plain one). *)
Definition store_update (id : string) (q : Z) : M () :=
  _ ← emit (EUpdate id q);
  _ ← store_call;
  ds ← get_docs;
  match ds !! id with
  | Some d => put_docs (<[id := mkDoc q (ssfs_account_api_key d)]> ds)
  | None => throw (StoreError false)
  end.

Definition blob_save (filename : string) (content : Body) : M () :=
  _ ← emit (ESave filename content);
  fallible BlobError.

Definition axios_post (payload : Payload) : M () :=
  _ ← emit (EPost payload);
  fallible NetworkError.

Definition respond (status : Z) (b : ResBody) : M () := emit (ERespond status b).

Definition console_error (e : Error) : M () := emit (EConsoleError e).

(** [Date.now()] *)
Definition date_now : M Z := λ w, (Ret (now w), w).

(** [JSON.stringify(error)], whose value only goes to [logDebug]: what
    matters is that it throws a TypeError on an error it cannot serialise
    (one that holds a circular reference or a BigInt). *)
Definition json_stringify (e : Error) : M () :=
  match e with
  | StoreError true => throw TypeError
  | _ => mret ()
  end.

(** ** JavaScript numbers *)

(** The double nearest to an integer, ties to even: below 2^53 in magnitude
    every integer is a double; beyond, a double keeps 53 significant bits.
    (Magnitudes past the largest double do not arise here: the one rounded
    operation is the difference of a double and a smaller positive one.) *)
Definition number_value (z : Z) : Z :=
  let a := Z.abs z in
  if bool_decide (a < 2 ^ 53) then z
  else
    let e := Z.log2 a - 52 in
    let q := a `div` 2 ^ e in
    let r := a `mod` 2 ^ e in
    let half := 2 ^ (e - 1) in
    let q' := if bool_decide (r < half) then q
              else if bool_decide (half < r) then q + 1
              else if Z.even q then q else q + 1 in
    Z.sgn z * (q' * 2 ^ e).

(** [x - y] on doubles that are integers. *)
Definition js_minus (x y : Z) : Z := number_value (x - y).

Fixpoint zeros (n : nat) : string :=
  match n with
  | O => ""
  | S n => "0" +:+ zeros n
  end.

(** The pairs [(s, m)] with [k] digits in [s] such that [s * 10^m] is a
    decimal of the double [a], which has [d] digits. *)
Definition candidates (a d k : Z) : list (Z * Z) :=
  let m := d - k in
  filter (λ c, 10 ^ (k - 1) ≤ c.1 < 10 ^ k ∧ number_value (c.1 * 10 ^ c.2) = a)
    [(a `div` 10 ^ m, m); (a `div` 10 ^ m + 1, m); (10 ^ (k - 1), m + 1)].

Definition closer (a : Z) (c1 c2 : Z * Z) : Z * Z :=
  if bool_decide (Z.abs (c2.1 * 10 ^ c2.2 - a) < Z.abs (c1.1 * 10 ^ c1.2 - a)) then c2 else c1.

Definition closest (a : Z) (cs : list (Z * Z)) : option (Z * Z) :=
  match cs with
  | [] => None
  | c :: cs => Some (foldl (closer a) c cs)
  end.

(** The fewest digits that give the double back, and among those the
    decimal closest to it. *)
Fixpoint shortest_digits (fuel : nat) (a d k : Z) : option (Z * Z) :=
  match fuel with
  | O => None
  | S fuel =>
      match closest a (candidates a d k) with
      | Some c => Some c
      | None => shortest_digits fuel a d (k + 1)
      end
  end.

(** [d.ddde+n] *)
Definition exponent_form (s e : Z) : string :=
  match pretty s with
  | String c "" => String c ""
  | String c rest => String c ("." +:+ rest)
  | "" => ""
  end +:+ "e+" +:+ pretty e.

(** [Number::toString] on a double that is an integer: its digits below
    2^53; beyond, the shortest digits followed by zeros up to 21 digits, and
    the exponent form past that. *)
Definition integer_to_string (v : Z) : string :=
  let a := Z.abs v in
  if bool_decide (a < 2 ^ 53) then pretty v
  else
    match shortest_digits 17 a (Z.of_nat (String.length (pretty a))) 1 with
    | None => pretty v
    | Some (s, m) =>
        let n := m + Z.of_nat (String.length (pretty s)) in
        (if bool_decide (v < 0) then "-" else "") +:+
        (if bool_decide (n ≤ 21) then pretty s +:+ zeros (Z.to_nat m)
         else exponent_form s (n - 1))
    end.

(** ** JavaScript coercions *)

(** [!s] for a string that may be undefined. *)
Definition falsy (s : option string) : bool :=
  match s with
  | None => true
  | Some s => bool_decide (s = "")
  end.

(** The string itself when [if (s)] takes the branch. *)
Definition truthy (s : option string) : option string :=
  match s with
  | Some s => if bool_decide (s = "") then None else Some s
  | None => None
  end.

(** [!d.allowed] *)
Definition not_allowed (d : Decision) : bool :=
  match allowed d with
  | Some true => false
  | _ => true
  end.

(** [`${v}`] for the result of [getUserApiKey]. *)
Definition template_key (v : KeyResult) : string :=
  match v with
  | KObject _ => "[object Object]"
  | KString s => s
  | KFalse => "false"
  end.

(** [`${s}`] for a string that may be undefined. *)
Definition template_str (s : option string) : string :=
  match s with
  | Some s => s
  | None => "undefined"
  end.


(** [x.p] where [x] may be undefined: a TypeError when it is. *)
Definition member {A} (x : option A) : M A :=
  match x with
  | Some a => mret a
  | None => throw TypeError
  end.

(** ** Quota ledger *)

(** [`${q / serviceCostPerLead}`]: the cost is 2, so the quotient is exact,
    an integer or (below 2^53) an integer and a half. *)
Definition show_per_lead (q : Z) : string :=
  if bool_decide (q `rem` serviceCostPerLead = 0)
  then integer_to_string (q `quot` serviceCostPerLead)
  else (if bool_decide (q < 0) then "-" else "")
       +:+ pretty (Z.abs q `quot` serviceCostPerLead) +:+ ".5".

Definition quota_exceeded_message (objectCount q : Z) : string :=
  "Quota exceeded, you've requested " +:+ pretty objectCount +:+
  " leads to be processed, only " +:+ show_per_lead q +:+
  " leads can be processed based on your remaining credits quota, additional subscription credits are required. Please renew your subscription.".

Definition checkQuota (subscriptionId : option string) (objectData : option (list Item))
  : M Decision :=
  match truthy subscriptionId with
  | None => mret (mkDecision "subscriptionId is required" None None None)
  | Some id =>
      try_catch
        (data ← member objectData;
         let objectCount := Z.of_nat (length data) in
         if bool_decide (objectCount < 1)
         then mret (mkDecision "At least one object is required" None None (Some false))
         else
           doc ← store_get id;
           match doc with
           | None => mret (mkDecision "ID not found" None None (Some false))
           | Some data =>
               let creditsNeeded := objectCount * serviceCostPerLead in
               if bool_decide (quota data > creditsNeeded)
               then
                 let updatedQuota := js_minus (quota data) creditsNeeded in
                 _ ← store_update id updatedQuota;
                 mret (mkDecision "Success" (Some creditsNeeded) (Some updatedQuota) (Some true))
               else
                 mret (mkDecision (quota_exceeded_message objectCount (quota data))
                                  None (Some (quota data)) (Some false))
           end)
        (λ error,
           _ ← json_stringify error;
           mret (mkDecision "Internal Server Error" None None (Some false)))
  end.

(** ** Identity store accessor *)

Definition getUserApiKey (subscriptionId : option string) : M KeyResult :=
  match truthy subscriptionId with
  | None => mret (KObject (mkDecision "subscriptionId is required" None None None))
  | Some id =>
      try_catch
        (doc ← store_get id;
         match doc with
         | None => mret (KObject (mkDecision "ID not found" None None (Some false)))
         | Some data =>
             match ssfs_account_api_key data with
             | Some k => mret (KString k)
             | None => mret KFalse
             end
         end)
        (λ error,
           _ ← json_stringify error;
           mret KFalse)
  end.

(** ** Auth gate *)

Definition authMiddleware (req : Request) (next : M ()) : M () :=
  let authHeader := x_api_key req in
  ctx ← member (context (body req));
  sub ← member (subscription ctx);
  let munchkinId := munchkinId sub in
  userApiKey ← getUserApiKey munchkinId;
  if falsy authHeader
  then respond 401 (RJson "Authorization header missing")
  else if bool_decide (authHeader ≠ Some (template_key userApiKey))
  then respond 401 (RJson "Invalid credentials")
  else detach next.

(** ** Request handler *)

(** The callback handed to [authMiddleware]. *)
Definition handler_callback (req : Request) : M () :=
  let jsonData := body req in
  ctx ← member (context (body req));
  sub ← member (subscription ctx);
  let munchkinId := munchkinId sub in
  quota ← checkQuota munchkinId (objectData (body req));
  if not_allowed quota
  then respond 403 (RJson (message quota))
  else
    t ← date_now;
    let filename :=
      serviceName +:+ "/" +:+ template_str munchkinId +:+ "/data-" +:+ pretty t +:+ ".json" in
    _ ← blob_save filename jsonData;
    let payload := mkPayload filename bucketName ("gs://" +:+ bucketName +:+ "/" +:+ filename) in
    _ ← respond 201 (RText "Request accepted successfully");
    axios_post payload.

Definition submitAsyncAction (req : Request) : M () :=
  try_catch
    (authMiddleware req (handler_callback req))
    (λ error,
       _ ← console_error error;
       respond 500 (RText "Internal Server Error")).

(** ** The ledger at the grain of its awaits

    [checkQuota] gives control back twice, at [await quotaDoc.get()] and at
    [await quotaDoc.update(..)]; between the two, other requests run.  A call
    in progress is a [Ledger]: not started, holding the snapshot it read, or
    finished.  A step runs the code up to and including the next store call. *)

Inductive Ledger :=
| LCall (subscriptionId : option string) (objectData : option (list Item))
| LGot (id : string) (objectCount : Z) (doc : option Doc)
| LDone (d : Decision).

Definition ledger_step (l : Ledger) : M Ledger :=
  match l with
  | LCall subscriptionId objectData =>
      match truthy subscriptionId with
      | None => mret (LDone (mkDecision "subscriptionId is required" None None None))
      | Some id =>
          try_catch
            (data ← member objectData;
             let objectCount := Z.of_nat (length data) in
             if bool_decide (objectCount < 1)
             then mret (LDone (mkDecision "At least one object is required" None None (Some false)))
             else
               doc ← store_get id;
               mret (LGot id objectCount doc))
            (λ error,
               _ ← json_stringify error;
               mret (LDone (mkDecision "Internal Server Error" None None (Some false))))
      end
  | LGot id objectCount doc =>
      try_catch
        (match doc with
         | None => mret (LDone (mkDecision "ID not found" None None (Some false)))
         | Some data =>
             let creditsNeeded := objectCount * serviceCostPerLead in
             if bool_decide (quota data > creditsNeeded)
             then
               let updatedQuota := js_minus (quota data) creditsNeeded in
               _ ← store_update id updatedQuota;
               mret (LDone (mkDecision "Success" (Some creditsNeeded) (Some updatedQuota) (Some true)))
             else
               mret (LDone (mkDecision (quota_exceeded_message objectCount (quota data))
                                       None (Some (quota data)) (Some false)))
         end)
        (λ error,
           _ ← json_stringify error;
           mret (LDone (mkDecision "Internal Server Error" None None (Some false))))
  | LDone d => mret (LDone d)
  end.

(** Two calls in progress; the schedule says which one takes the next step
    ([false]: the first, [true]: the second). *)
Fixpoint interleave (sched : list bool) (p q : Ledger) : M (Ledger * Ledger) :=
  match sched with
  | [] => mret (p, q)
  | false :: sched => p' ← ledger_step p; interleave sched p' q
  | true :: sched => q' ← ledger_step q; interleave sched p q'
  end.

(** ** Vocabulary of the statements *)

(** The world after a store call that was issued, whatever its outcome. *)
Definition called (e : Event) (w : World) : World :=
  mkWorld (docs w) (tail (faults w)) (tail (opaque w)) (now w) (trace w ++ [e]).

Definition with_docs (ds : gmap string Doc) (w : World) : World :=
  mkWorld ds (faults w) (opaque w) (now w) (trace w).


(** The world after a call that cannot fail. *)
Definition emitted (e : Event) (w : World) : World :=
  mkWorld (docs w) (faults w) (opaque w) (now w) (trace w ++ [e]).

(** What a run added to the trace. *)
Definition new_events (w w' : World) : list Event :=
  drop (length (trace w)) (trace w').

(** No scheduled call fails. *)
Definition calm (w : World) : Prop := true ∉ faults w.

(** Every store error of the schedule is one [JSON.stringify] can serialise. *)
Definition serialisable (w : World) : Prop := true ∉ opaque w.

(** A safe integer: [Number.isSafeInteger], magnitude below 2^53. *)
Definition safe_integer (z : Z) : Prop := - 2 ^ 53 < z < 2 ^ 53.

(** Every stored quota is a safe integer. *)
Definition quotas_safe (ds : gmap string Doc) : Prop :=
  ∀ i d, ds !! i = Some d → safe_integer (quota d).

(** Every stored quota is non-negative. *)
Definition quotas_nonneg (ds : gmap string Doc) : Prop :=
  ∀ i d, ds !! i = Some d → 0 ≤ quota d.

Definition is_response (e : Event) : bool :=
  match e with
  | ERespond _ _ => true
  | _ => false
  end.

(** A call to the document store. *)
Definition is_store_call (e : Event) : bool :=
  match e with
  | EGet _ | EUpdate _ _ => true
  | _ => false
  end.

(** The events of a run that are not calls to the document store, in order. *)
Definition outside_store (evs : list Event) : list Event :=
  filter (λ e, is_store_call e = false) evs.

(** The responses of a run, in order. *)
Definition responses (evs : list Event) : list Event :=
  filter (λ e, is_response e = true) evs.

(** A write to a store or a call downstream. *)
Definition is_side_effect (e : Event) : bool :=
  match e with
  | EUpdate _ _ | ESave _ _ | EPost _ => true
  | _ => false
  end.

(** The test of the gate: the header is missing, or differs from the
    coerced result of [getUserApiKey]. *)
Definition gate_rejects (authHeader : option string) (userApiKey : KeyResult) : bool :=
  falsy authHeader || bool_decide (authHeader ≠ Some (template_key userApiKey)).

(** The decisions of the ledger. *)

Definition id_required : Decision :=
  mkDecision "subscriptionId is required" None None None.
Definition empty_batch : Decision :=
  mkDecision "At least one object is required" None None (Some false).
Definition id_not_found : Decision :=
  mkDecision "ID not found" None None (Some false).
Definition internal_error : Decision :=
  mkDecision "Internal Server Error" None None (Some false).
Definition success (creditsNeeded updatedQuota : Z) : Decision :=
  mkDecision "Success" (Some creditsNeeded) (Some updatedQuota) (Some true).
Definition quota_exceeded (objectCount q : Z) : Decision :=
  mkDecision (quota_exceeded_message objectCount q) None (Some q) (Some false).


Definition ack : Event := ERespond 201 (RText "Request accepted successfully").

(** The name of the stored artifact and the payload sent downstream. *)
Definition artifact_name (munchkinId : option string) (t : Z) : string :=
  serviceName +:+ "/" +:+ template_str munchkinId +:+ "/data-" +:+ pretty t +:+ ".json".

Definition notification (filename : string) : Payload :=
  mkPayload filename bucketName ("gs://" +:+ bucketName +:+ "/" +:+ filename).

Definition internal_server_error : Event := ERespond 500 (RText "Internal Server Error").

(** The body has [context.subscription]. *)
Definition subscription_of (req : Request) : option Subscription :=
  match context (body req) with
  | Some ctx => subscription ctx
  | None => None
  end.

(** A request for account [id] with credential [key] and a batch [objs]. *)
Definition request (key : option string) (id : option string) (objs : list Item) : Request :=
  mkRequest key (mkBody (Some (mkContext (Some (mkSubscription id)))) (Some objs)).

(** The denial the ledger gives for a quota [Q] that does not cover the
    batch: not allowed, the message with the affordable number of leads, the
    quota reported back, and nothing written. *)
Definition denies_reporting_affordable
    (w : World) (id : string) (objs : list Item) (Q : Z) : Prop :=
  ∃ d w',
    checkQuota (Some id) (Some objs) w = (Ret d, w') ∧
    allowed d = Some false ∧
    message d = quota_exceeded_message (Z.of_nat (length objs)) Q ∧
    remainingQuota d = Some Q ∧
    docs w' = docs w ∧
    ∀ e, e ∈ new_events w w' → is_side_effect e = false.

(** Two debits of one account, whatever the order of their steps, are both
    allowed only if the stored quota covers their combined cost. *)
Definition debits_never_overspend : Prop :=
  ∀ sched w id Q key objs1 objs2 d1 d2 w',
    docs w !! id = Some (mkDoc Q key) →
    interleave sched (LCall (Some id) (Some objs1)) (LCall (Some id) (Some objs2)) w
      = (Ret (LDone d1, LDone d2), w') →
    allowed d1 = Some true →
    allowed d2 = Some true →
    (Z.of_nat (length objs1) + Z.of_nat (length objs2)) * serviceCostPerLead ≤ Q.

(** The schedule in which the first call finishes before the second starts. *)
Definition serial : list bool := [false; false; true; true].

(** What a [catch] block that serialises the error ends with: the value, or
    the TypeError of [JSON.stringify]. *)
Definition caught {A} (opq : bool) (a : A) : Outcome A :=
  if opq then Throw TypeError else Ret a.

(** The account of the end-to-end scenarios: [M1], with a quota, maybe a
    key, and a schedule of faults. *)
Definition world_M1 (q : Z) (key : option string) (fs : list bool) : World :=
  mkWorld {[ "M1" := mkDoc q key ]} fs [] 1700000000000 [].

(** The same world with store errors that cannot be serialised. *)
Definition with_opaque (os : list bool) (w : World) : World :=
  mkWorld (docs w) (faults w) os (now w) (trace w).

(** A request whose body has [context.subscription] and an [objectData]
    that may be missing. *)
Definition envelope (key id : option string) (objectData : option (list Item)) : Request :=
  mkRequest key (mkBody (Some (mkContext (Some (mkSubscription id)))) objectData).

(** * Properties *)

(** ** JavaScript numbers *)

Lemma number_value_safe z : safe_integer z → number_value z = z.
Proof.
  intros [Hlo Hhi]. unfold number_value. cbv zeta.
  rewrite bool_decide_true; [done|]. lia.
Qed.

Lemma number_value_pos z : 0 < z → 0 < number_value z.
Proof.
  intros Hz. unfold number_value. cbv zeta.
  case_bool_decide as Hbig; [done|].
  rewrite Z.abs_eq in * by lia. rewrite Z.sgn_pos by done.
  assert (53 ≤ Z.log2 z) as Hlog.
  { change 53 with (Z.log2 (2 ^ 53)). apply Z.log2_le_mono. lia. }
  set (e := Z.log2 z - 52).
  assert (0 < 2 ^ e) as Hpow by (apply Z.pow_pos_nonneg; lia).
  assert (2 ^ e ≤ z) as Hle.
  { transitivity (2 ^ Z.log2 z); [apply Z.pow_le_mono_r; lia|].
    apply Z.log2_spec. done. }
  assert (0 < z `div` 2 ^ e) as Hq by (by apply Z.div_str_pos).
  rewrite Z.mul_1_l. apply Z.mul_pos_pos; [|done].
  repeat case_bool_decide; try lia. destruct (Z.even _); lia.
Qed.

(** A debit within the safe integers is exact. *)
Lemma js_minus_safe Q c : safe_integer Q → 0 < c → c < Q → js_minus Q c = Q - c.
Proof.
  intros [Hlo Hhi] Hc HQ. unfold js_minus. apply number_value_safe.
  unfold safe_integer. lia.
Qed.

Lemma js_minus_pos Q c : c < Q → 0 < js_minus Q c.
Proof. intros HQ. unfold js_minus. apply number_value_pos. lia. Qed.

(** Beyond the safe integers a debit can be lost in the rounding. *)
Example js_minus_rounds : js_minus (2 ^ 55) 2 = 2 ^ 55.
Proof. vm_compute. reflexivity. Qed.

(** ** The monad, unfolded *)

Ltac unfold_M :=
  unfold try_catch, detach, member, throw, store_get, store_update, blob_save,
    axios_post, respond, console_error, date_now, emit, store_call, fallible, get_docs,
    put_docs, mbind, M_bind, mret, M_ret; simpl.

Lemma store_get_eq id w :
  store_get id w =
    (if next_fault w then Throw (StoreError (next_opaque w)) else Ret (docs w !! id),
     called (EGet id) w).
Proof.
  unfold_M. unfold next_fault, called. simpl.
  destruct (default false (head (faults w))); reflexivity.
Qed.

Lemma store_update_eq id q w :
  store_update id q w =
    if next_fault w then (Throw (StoreError (next_opaque w)), called (EUpdate id q) w)
    else match docs w !! id with
         | Some d =>
             (Ret (), with_docs (<[id := mkDoc q (ssfs_account_api_key d)]> (docs w))
                                (called (EUpdate id q) w))
         | None => (Throw (StoreError false), called (EUpdate id q) w)
         end.
Proof.
  unfold_M. unfold next_fault, called, with_docs. simpl.
  destruct (default false (head (faults w))); [reflexivity|].
  destruct w as [ds fs os t tr]; simpl.
  destruct (ds !! id); reflexivity.
Qed.

(** The [catch] block on an error of the store. *)
Lemma catch_store_error {A} (a : A) opq w :
  (_ ← json_stringify (StoreError opq); mret a) w = (caught opq a, w).
Proof. by destruct opq. Qed.

(** [checkQuota] path by path. *)
Lemma checkQuota_eq sid objs w :
  checkQuota sid objs w =
    match truthy sid with
    | None => (Ret id_required, w)
    | Some id =>
      match objs with
      | None => (Ret internal_error, w)
      | Some data =>
        let n := Z.of_nat (length data) in
        if bool_decide (n < 1) then (Ret empty_batch, w)
        else
          let w1 := called (EGet id) w in
          if next_fault w then (caught (next_opaque w) internal_error, w1)
          else match docs w !! id with
               | None => (Ret id_not_found, w1)
               | Some d =>
                 let c := n * serviceCostPerLead in
                 let q := js_minus (quota d) c in
                 if bool_decide (quota d > c) then
                   let w2 := called (EUpdate id q) w1 in
                   if next_fault w1 then (caught (next_opaque w1) internal_error, w2)
                   else (Ret (success c q),
                         with_docs (<[id := mkDoc q (ssfs_account_api_key d)]> (docs w)) w2)
                 else (Ret (quota_exceeded n (quota d)), w1)
               end
      end
    end.
Proof.
  unfold checkQuota. destruct (truthy sid) as [id|]; [|reflexivity].
  unfold try_catch, mbind at 1, M_bind at 1, member.
  destruct objs as [data|]; [|reflexivity].
  unfold mret at 1, M_ret at 1. cbv zeta.
  case_bool_decide; [reflexivity|].
  unfold mbind at 1, M_bind at 1. rewrite store_get_eq.
  destruct (next_fault w); [apply catch_store_error|].
  destruct (docs w !! id) as [d|] eqn:Hd; [|reflexivity].
  case_bool_decide; [|reflexivity].
  unfold mbind at 1, M_bind at 1. rewrite store_update_eq.
  destruct (next_fault (called (EGet id) w)); [apply catch_store_error|].
  simpl. rewrite Hd. reflexivity.
Qed.

(** ** Schedules without faults *)

Lemma calm_next_fault w : calm w → next_fault w = false.
Proof.
  unfold calm, next_fault. destruct (faults w) as [|[] fs]; simpl; [done| |done].
  intros H. destruct H. apply list_elem_of_here.
Qed.

Lemma calm_called e w : calm w → calm (called e w).
Proof.
  unfold calm, called. simpl. destruct (faults w) as [|b fs]; simpl; [done|].
  intros H Hin. apply H. by apply list_elem_of_further.
Qed.

Lemma calm_nil ds os t tr : calm (mkWorld ds [] os t tr).
Proof. unfold calm. simpl. apply not_elem_of_nil. Qed.

Lemma serialisable_next_opaque w : serialisable w → next_opaque w = false.
Proof.
  unfold serialisable, next_opaque. destruct (opaque w) as [|[] os]; [done| |done].
  intros []. apply list_elem_of_here.
Qed.

Lemma serialisable_called e w : serialisable w → serialisable (called e w).
Proof.
  unfold serialisable, called. simpl. destruct (opaque w) as [|o os]; [done|].
  simpl. intros Hno Hin. apply Hno. by apply list_elem_of_further.
Qed.

Lemma serialisable_world_M1 q key fs : serialisable (world_M1 q key fs).
Proof. apply not_elem_of_nil. Qed.

Lemma truthy_Some id : id ≠ "" → truthy (Some id) = Some id.
Proof. intros H. unfold truthy. by rewrite bool_decide_false. Qed.

Lemma truthy_inv sid id : truthy sid = Some id → sid = Some id ∧ id ≠ "".
Proof.
  destruct sid as [s|]; simpl; [|done].
  case_bool_decide; [done|]. intros [= ->]. done.
Qed.

(** ** Quota ledger: decision and debit *)

(** The allowed path of [checkQuota], read backwards: an allowed decision
    comes from a stored quota above the cost, and the debit was written. *)
Lemma checkQuota_allowed_inv sid objs w d w' :
  checkQuota sid objs w = (Ret d, w') →
  allowed d = Some true →
  ∃ id data doc,
    let c := Z.of_nat (length data) * serviceCostPerLead in
    let q := js_minus (quota doc) c in
    truthy sid = Some id ∧ objs = Some data ∧ 1 ≤ Z.of_nat (length data) ∧
    docs w !! id = Some doc ∧ quota doc > c ∧
    d = success c q ∧
    docs w' = <[id := mkDoc q (ssfs_account_api_key doc)]> (docs w) ∧
    trace w' = (trace w ++ [EGet id; EUpdate id q])%list.
Proof.
  rewrite checkQuota_eq.
  destruct (truthy sid) as [id|]; [|by intros [= <- <-]].
  destruct objs as [data|]; [|by intros [= <- <-]].
  cbv zeta. case_bool_decide; [by intros [= <- <-]|].
  destruct (next_fault w); [by destruct (next_opaque w); intros [= <- <-]|].
  destruct (docs w !! id) as [doc|] eqn:Hdoc; [|by intros [= <- <-]].
  case_bool_decide; [|by intros [= <- <-]].
  destruct (next_fault (called (EGet id) w));
    [by destruct (next_opaque (called (EGet id) w)); intros [= <- <-]|].
  intros [= <- <-] _. exists id, data, doc. simpl.
  repeat split; try done; try lia.
  by rewrite <- app_assoc.
Qed.

(** C1. For an account with stored quota [Q], a safe integer, and a batch
    of [n >= 1] items, with a store that answers, [checkQuota] allows the
    request iff [Q > n * serviceCostPerLead] (so [Q = n * serviceCostPerLead]
    is rejected); on an allowed request it writes
    [Q - n * serviceCostPerLead] as the account's quota and returns
    [usedQuota = n * serviceCostPerLead] and [remainingQuota] equal to the
    value it wrote. *)
Theorem checkQuota_allows_iff_quota_above_cost w id Q key objs :
  id ≠ "" →
  docs w !! id = Some (mkDoc Q key) →
  safe_integer Q →
  calm w →
  1 ≤ Z.of_nat (length objs) →
  let c := Z.of_nat (length objs) * serviceCostPerLead in
  ∃ d w',
    checkQuota (Some id) (Some objs) w = (Ret d, w') ∧
    (allowed d = Some true ↔ Q > c) ∧
    (Q ≤ c → allowed d = Some false) ∧
    (Q > c →
       docs w' = <[id := mkDoc (Q - c) key]> (docs w) ∧
       new_events w w' = [EGet id; EUpdate id (Q - c)] ∧
       usedQuota d = Some c ∧
       remainingQuota d = Some (Q - c) ∧
       quota <$> docs w' !! id = remainingQuota d).
Proof.
  intros Hid Hdoc Hsafe Hcalm Hn c.
  rewrite checkQuota_eq, truthy_Some by done. cbv zeta.
  rewrite bool_decide_false by lia.
  rewrite calm_next_fault by done. rewrite Hdoc. simpl quota. fold c.
  case_bool_decide as Hq.
  - rewrite calm_next_fault by (by apply calm_called).
    rewrite (js_minus_safe Q c); [|done|unfold c, serviceCostPerLead; lia|lia].
    eexists _, _. split; [reflexivity|]. simpl.
    split; [done|]. split; [lia|]. intros _.
    split; [done|]. split.
    + unfold new_events. simpl. rewrite <- app_assoc. by rewrite drop_app_length.
    + by rewrite lookup_insert_eq.
  - eexists _, _. split; [reflexivity|]. simpl.
    split; [split; [done|lia]|]. split; [done|]. lia.
Qed.

Lemma checkQuota_allows_iff_quota_above_cost_witness :
  ∃ d w',
    checkQuota (Some "M1") (Some ["a"; "b"; "c"]) (world_M1 10 (Some "k") []) = (Ret d, w') ∧
    (allowed d = Some true ↔ 10 > 6) ∧
    (10 ≤ 6 → allowed d = Some false) ∧
    (10 > 6 →
       docs w' = <[ "M1" := mkDoc 4 (Some "k") ]> (docs (world_M1 10 (Some "k") [])) ∧
       new_events (world_M1 10 (Some "k") []) w' = [EGet "M1"; EUpdate "M1" 4] ∧
       usedQuota d = Some 6 ∧
       remainingQuota d = Some 4 ∧
       quota <$> docs w' !! "M1" = remainingQuota d).
Proof.
  refine (checkQuota_allows_iff_quota_above_cost
            (world_M1 10 (Some "k") []) "M1" 10 (Some "k") ["a"; "b"; "c"] _ _ _ _ _).
  - done.
  - reflexivity.
  - unfold safe_integer. lia.
  - apply calm_nil.
  - simpl. lia.
Defined.

(** Beyond the safe integers the claim does not hold: at a quota of 2^55
    the request is allowed and the value written is 2^55 again. *)
Example checkQuota_debit_lost_in_rounding :
  let w := world_M1 (2 ^ 55) (Some "k") [] in
  checkQuota (Some "M1") (Some ["a"]) w
  = (Ret (success 2 (2 ^ 55)),
     with_docs (<["M1" := mkDoc (2 ^ 55) (Some "k")]> (docs w))
       (called (EUpdate "M1" (2 ^ 55)) (called (EGet "M1") w))).
Proof. vm_compute. reflexivity. Qed.

(** The boundary: a quota equal to the cost is rejected and nothing is written. *)
Example checkQuota_boundary_rejected :
  let w := world_M1 6 (Some "k") [] in
  checkQuota (Some "M1") (Some ["a"; "b"; "c"]) w
  = (Ret (quota_exceeded 3 6), called (EGet "M1") w).
Proof. reflexivity. Qed.

(** Every run of [checkQuota] does one of three things to the world:
    nothing, a read, or a read and a write of a quota that the stored one
    covers.  It ends with a decision, or with the TypeError of
    [JSON.stringify] after a store call that threw. *)
Lemma checkQuota_run sid objs w :
  ∃ o w' evs,
    checkQuota sid objs w = (o, w') ∧
    trace w' = (trace w ++ evs)%list ∧
    now w' = now w ∧
    faults w' = drop (length evs) (faults w) ∧
    ((evs = [] ∧ docs w' = docs w ∧ ∃ d, o = Ret d ∧ allowed d ≠ Some true) ∨
     (∃ id, evs = [EGet id] ∧ docs w' = docs w ∧
            (o = Throw TypeError ∨ ∃ d, o = Ret d ∧ allowed d ≠ Some true)) ∨
     (∃ id doc c,
        let q := js_minus (quota doc) c in
        truthy sid = Some id ∧ docs w !! id = Some doc ∧
        0 < c ∧ c < quota doc ∧
        evs = [EGet id; EUpdate id q] ∧
        (((o = Throw TypeError ∨ o = Ret internal_error) ∧ docs w' = docs w) ∨
         (o = Ret (success c q) ∧
          docs w' = <[id := mkDoc q (ssfs_account_api_key doc)]> (docs w))))).
Proof.
  rewrite checkQuota_eq.
  destruct (truthy sid) as [id|].
  2:{ eexists _, _, []. rewrite app_nil_r. split; [reflexivity|]. repeat split.
      left. repeat split. by eexists. }
  destruct objs as [data|].
  2:{ eexists _, _, []. rewrite app_nil_r. split; [reflexivity|]. repeat split.
      left. repeat split. by eexists. }
  cbv zeta. case_bool_decide as Hn.
  { eexists _, _, []. rewrite app_nil_r. split; [reflexivity|]. repeat split.
    left. repeat split. by eexists. }
  destruct (next_fault w).
  { eexists _, _, [EGet id]. split; [reflexivity|]. repeat split.
    right; left. exists id. repeat split.
    destruct (next_opaque w); [by left|right; by eexists]. }
  destruct (docs w !! id) as [doc|] eqn:Hdoc.
  2:{ eexists _, _, [EGet id]. split; [reflexivity|]. repeat split.
      right; left. exists id. repeat split. right. by eexists. }
  case_bool_decide as Hq.
  2:{ eexists _, _, [EGet id]. split; [reflexivity|]. repeat split.
      right; left. exists id. repeat split. right. by eexists. }
  set (c := Z.of_nat (length data) * serviceCostPerLead) in *.
  assert (0 < c) by (unfold c, serviceCostPerLead; lia).
  destruct (next_fault (called (EGet id) w)).
  all: eexists _, _, [EGet id; EUpdate id (js_minus (quota doc) c)]; split; [reflexivity|].
  all: split; [simpl; by rewrite <- app_assoc|].
  all: split; [done|].
  all: split; [simpl; by destruct (faults w) as [|? [|? ?]]|].
  all: right; right; exists id, doc, c.
  all: repeat split; auto; try lia.
  left. split; [|done]. destruct (next_opaque (called (EGet id) w)); [by left|by right].
Qed.

(** C3, as stated, at an empty batch against a quota of zero: the decision
    is the one for an empty batch, without [remainingQuota] and without the
    affordable number of leads. *)
Lemma checkQuota_denial_counterexample :
  let w := world_M1 0 (Some "k") [] in
  docs w !! "M1" = Some (mkDoc 0 (Some "k")) ∧
  calm w ∧
  0 ≤ Z.of_nat (length (@nil Item)) * serviceCostPerLead ∧
  ¬ denies_reporting_affordable w "M1" [] 0.
Proof.
  split; [reflexivity|]. split; [apply calm_nil|]. split; [done|].
  intros (d & w' & Hrun & _ & _ & Hrem & _).
  rewrite checkQuota_eq in Hrun. simpl in Hrun.
  injection Hrun as <- <-. discriminate Hrem.
Qed.

(** C3, amended. For an account with stored quota [Q] and a batch of
    [n >= 1] items such that [Q <= n * serviceCostPerLead], with a store
    that answers, [checkQuota] returns [allowed: false] with the message that
    only [Q / serviceCostPerLead] leads can be processed and
    [remainingQuota = Q]; the stored documents are unchanged and no write is
    issued. *)
Theorem checkQuota_denies_when_quota_not_above_cost w id Q key objs :
  id ≠ "" →
  docs w !! id = Some (mkDoc Q key) →
  calm w →
  1 ≤ Z.of_nat (length objs) →
  Q ≤ Z.of_nat (length objs) * serviceCostPerLead →
  denies_reporting_affordable w id objs Q.
Proof.
  intros Hid Hdoc Hcalm Hn Hq. unfold denies_reporting_affordable.
  rewrite checkQuota_eq, truthy_Some by done. cbv zeta.
  rewrite bool_decide_false by lia.
  rewrite calm_next_fault by done. rewrite Hdoc. simpl quota.
  rewrite bool_decide_false by lia.
  eexists _, _. split; [reflexivity|]. simpl. repeat split.
  intros e. unfold new_events. simpl. rewrite drop_app_length.
  intros ->%list_elem_of_singleton. done.
Qed.

Lemma checkQuota_denies_when_quota_not_above_cost_witness :
  denies_reporting_affordable (world_M1 4 (Some "k") []) "M1" ["a"; "b"; "c"] 4.
Proof.
  refine (checkQuota_denies_when_quota_not_above_cost
            (world_M1 4 (Some "k") []) "M1" 4 (Some "k") ["a"; "b"; "c"] _ _ _ _ _).
  - done.
  - reflexivity.
  - apply calm_nil.
  - simpl. lia.
  - simpl. unfold serviceCostPerLead. lia.
Defined.

(** The number of leads in the message is [Q / 2]: whole for an even quota,
    with all its digits when it is a safe integer. *)
Lemma show_per_lead_even k : safe_integer k → show_per_lead (2 * k) = pretty k.
Proof.
  intros [Hlo Hhi]. unfold show_per_lead, serviceCostPerLead.
  rewrite bool_decide_true by (rewrite Z.mul_comm; apply Z.rem_mul; lia).
  replace ((2 * k) `quot` 2) with k by (rewrite (Z.mul_comm 2 k), Z.quot_mul; lia).
  unfold integer_to_string. cbv zeta. rewrite bool_decide_true; [done|]. lia.
Qed.

(** Beyond 2^53 the digits are the shortest that give the double back. *)
Example show_per_lead_large : show_per_lead (2 ^ 61) = "1152921504606847000".
Proof. vm_compute. reflexivity. Qed.

(** The second end-to-end scenario: quota 4, three items. *)
Example quota_exceeded_message_scenario :
  quota_exceeded_message 3 4 =
  "Quota exceeded, you've requested 3 leads to be processed, only 2 leads can be processed based on your remaining credits quota, additional subscription credits are required. Please renew your subscription.".
Proof. reflexivity. Qed.

Example show_per_lead_odd : show_per_lead 5 = "2.5".
Proof. reflexivity. Qed.

(** C6. Whatever the account and the batch, every quota value that
    [checkQuota] writes is strictly positive, and stored quotas that are
    non-negative are still non-negative after the call. *)
Theorem checkQuota_keeps_quota_nonneg sid objs w :
  let w' := (checkQuota sid objs w).2 in
  (∀ i q, EUpdate i q ∈ new_events w w' → 0 < q) ∧
  (quotas_nonneg (docs w) → quotas_nonneg (docs w')).
Proof.
  destruct (checkQuota_run sid objs w) as (o & w' & evs & Hrun & Htr & _ & _ & Hcases).
  rewrite Hrun. simpl. unfold new_events. rewrite Htr, drop_app_length.
  destruct Hcases as [(-> & Hdocs & _) | [(id & -> & Hdocs & _) | Hwrite]].
  - split; [|by rewrite Hdocs]. intros i q Hin. by apply not_elem_of_nil in Hin.
  - split; [|by rewrite Hdocs]. intros i q Hin.
    apply list_elem_of_singleton in Hin. discriminate Hin.
  - destruct Hwrite as (id & doc & c & _ & Hdoc & Hc & Hq & -> & Hd).
    pose proof (js_minus_pos (quota doc) c Hq) as Hpos. split.
    + intros i q Hin. apply elem_of_cons in Hin as [Hin | Hin]; [discriminate Hin|].
      apply list_elem_of_singleton in Hin. by injection Hin as -> ->.
    + destruct Hd as [(_ & ->) | (_ & ->)]; [done|].
      intros Hinv i d'. destruct (decide (i = id)) as [->|Hne].
      * rewrite lookup_insert_eq. intros [= <-]. simpl. lia.
      * rewrite lookup_insert_ne by done. apply Hinv.
Qed.

Lemma checkQuota_keeps_quota_nonneg_witness :
  let w := world_M1 10 (Some "k") [] in
  let w' := (checkQuota (Some "M1") (Some ["a"; "b"; "c"]) w).2 in
  (∀ i q, EUpdate i q ∈ new_events w w' → 0 < q) ∧ quotas_nonneg (docs w').
Proof.
  intros w w'.
  pose proof (checkQuota_keeps_quota_nonneg (Some "M1") (Some ["a"; "b"; "c"]) w) as [Hw Hinv].
  split; [exact Hw|]. apply Hinv.
  intros i d. unfold w, world_M1. simpl.
  intros [_ <-]%lookup_singleton_Some. simpl. lia.
Defined.

(** What [checkQuota] does with a store call that throws: the error goes
    to the [catch] block, which serialises it for the debug log and returns
    the safe decision; the call of [JSON.stringify] is what can throw. *)
Lemma checkQuota_on_store_error id objs w :
  id ≠ "" →
  1 ≤ Z.of_nat (length objs) →
  (next_fault w = true →
   checkQuota (Some id) (Some objs) w
   = (caught (next_opaque w) internal_error, called (EGet id) w)) ∧
  (∀ doc,
     let c := Z.of_nat (length objs) * serviceCostPerLead in
     let w1 := called (EGet id) w in
     next_fault w = false →
     docs w !! id = Some doc →
     quota doc > c →
     next_fault w1 = true →
     checkQuota (Some id) (Some objs) w
     = (caught (next_opaque w1) internal_error,
        called (EUpdate id (js_minus (quota doc) c)) w1)).
Proof.
  intros Hid Hn. split.
  - intros Hf. rewrite checkQuota_eq, truthy_Some by done. cbv zeta.
    rewrite bool_decide_false by lia. by rewrite Hf.
  - intros doc c w1 Hf Hdoc Hq Hf1. rewrite checkQuota_eq, truthy_Some by done. cbv zeta.
    rewrite bool_decide_false by lia. rewrite Hf, Hdoc.
    rewrite bool_decide_true by done. fold w1. by rewrite Hf1.
Qed.

(** [checkQuota] throws nothing but the TypeError of [JSON.stringify], and
    only after a store call that threw. *)
Lemma checkQuota_throws_only_TypeError sid objs w e w' :
  checkQuota sid objs w = (Throw e, w') →
  e = TypeError ∧ true ∈ faults w.
Proof.
  rewrite checkQuota_eq.
  destruct (truthy sid) as [id|]; [|done].
  destruct objs as [data|]; [|done].
  cbv zeta. case_bool_decide; [done|].
  unfold next_fault at 1. destruct (faults w) as [|[] fs] eqn:Hfs; simpl.
  - destruct (docs w !! id) as [doc|]; [|done].
    case_bool_decide; [|done].
    unfold next_fault, called. simpl. by rewrite Hfs.
  - destruct (next_opaque w); [|done]. intros [= <- _].
    split; [done|apply list_elem_of_here].
  - destruct (docs w !! id) as [doc|]; [|done].
    case_bool_decide; [|done].
    unfold next_fault at 1, called at 1. simpl. rewrite Hfs. simpl.
    destruct fs as [|[] fs']; simpl; [done| |done].
    destruct (next_opaque _); [|done]. intros [= <- _].
    split; [done|]. apply list_elem_of_further, list_elem_of_here.
Qed.

(** C7, evaluated where it fails. The read (or the write) of the store
    throws an error that [JSON.stringify] cannot serialise: the [catch]
    block of [checkQuota] evaluates [JSON.stringify(error)] for its debug
    log, that call throws, and [checkQuota] rejects with a TypeError instead
    of returning the decision [Internal Server Error]. *)
Theorem checkQuota_rejects_on_unserialisable_store_error :
  (let w := with_opaque [true] (world_M1 10 (Some "k") [true]) in
   checkQuota (Some "M1") (Some ["a"; "b"; "c"]) w
   = (Throw TypeError, called (EGet "M1") w)) ∧
  (let w := with_opaque [false; true] (world_M1 10 (Some "k") [false; true]) in
   checkQuota (Some "M1") (Some ["a"; "b"; "c"]) w
   = (Throw TypeError, called (EUpdate "M1" 4) (called (EGet "M1") w))).
Proof. split; vm_compute; reflexivity. Qed.

(** The read fails: the decision is the safe one and nothing is written. *)
Example checkQuota_get_throws :
  let w := world_M1 10 (Some "k") [true] in
  checkQuota (Some "M1") (Some ["a"; "b"; "c"]) w
  = (Ret internal_error, called (EGet "M1") w).
Proof. reflexivity. Qed.

(** The write fails: the decision is the safe one and the quota stays. *)
Example checkQuota_update_throws :
  let w := world_M1 10 (Some "k") [false; true] in
  checkQuota (Some "M1") (Some ["a"; "b"; "c"]) w
  = (Ret internal_error, called (EUpdate "M1" 4) (called (EGet "M1") w)).
Proof. reflexivity. Qed.

(** [objectData] is missing from the body: the TypeError of
    [objectData.length] is caught by the same handler. *)
Example checkQuota_without_objectData w :
  checkQuota (Some "M1") None w = (Ret internal_error, w).
Proof. reflexivity. Qed.

(** ** Quota ledger: fail-fast paths *)

(** A batch without items is refused with [allowed: false] whatever the
    stored quota: the world, and so the store, is not touched. *)
Lemma checkQuota_empty_batch id w :
  id ≠ "" →
  checkQuota (Some id) (Some []) w = (Ret empty_batch, w).
Proof. intros Hid. rewrite checkQuota_eq, truthy_Some by done. reflexivity. Qed.

(** Without an account identifier the store is not touched either, and the
    handler treats the decision as a refusal. *)
Lemma checkQuota_without_id sid objs w :
  truthy sid = None →
  checkQuota sid objs w = (Ret id_required, w) ∧ not_allowed id_required = true.
Proof. intros Hid. rewrite checkQuota_eq, Hid. done. Qed.

(** C8, evaluated where it fails. With an empty or absent account
    identifier [checkQuota] returns, without touching the store, the object
    [{ message: 'subscriptionId is required' }]: it has no [allowed] field,
    so that field is not [false]. *)
Theorem checkQuota_without_id_has_no_allowed_field objs w :
  checkQuota (Some "") objs w = (Ret (mkDecision "subscriptionId is required" None None None), w) ∧
  checkQuota None objs w = (Ret (mkDecision "subscriptionId is required" None None None), w) ∧
  allowed (mkDecision "subscriptionId is required" None None None) ≠ Some false.
Proof. repeat split. discriminate. Qed.

(** ** Identity store accessor *)

Lemma getUserApiKey_eq sid w :
  getUserApiKey sid w =
    match truthy sid with
    | None => (Ret (KObject id_required), w)
    | Some id =>
        (if next_fault w then caught (next_opaque w) KFalse
         else match docs w !! id with
              | None => Ret (KObject id_not_found)
              | Some d =>
                  match ssfs_account_api_key d with
                  | Some k => Ret (KString k)
                  | None => Ret KFalse
                  end
              end,
         called (EGet id) w)
    end.
Proof.
  unfold getUserApiKey. destruct (truthy sid) as [id|]; [|reflexivity].
  unfold try_catch, mbind at 1, M_bind at 1. rewrite store_get_eq.
  destruct (next_fault w); [apply catch_store_error|].
  destruct (docs w !! id) as [d|]; [|reflexivity].
  destruct (ssfs_account_api_key d); reflexivity.
Qed.

(** The accessor reads at most once and writes nothing; it ends with a
    value, or with the TypeError of [JSON.stringify] after a read that
    threw. *)
Lemma getUserApiKey_run sid w :
  ∃ o w' evs,
    getUserApiKey sid w = (o, w') ∧
    trace w' = (trace w ++ evs)%list ∧
    docs w' = docs w ∧ now w' = now w ∧
    outside_store evs = [] ∧
    (∀ e, e ∈ evs → is_side_effect e = false) ∧
    (o = Throw TypeError ∨ ∃ key, o = Ret key).
Proof.
  rewrite getUserApiKey_eq. destruct (truthy sid) as [id|].
  - destruct (next_fault w);
      [destruct (next_opaque w)
      |destruct (docs w !! id) as [d|]; [destruct (ssfs_account_api_key d)|]].
    all: eexists _, _, [EGet id]; split; [reflexivity|].
    all: repeat split; [by intros e ->%list_elem_of_singleton|].
    all: try (by left); right; by eexists.
  - eexists _, _, []. rewrite app_nil_r. split; [reflexivity|]. repeat split.
    + by intros e ?%not_elem_of_nil.
    + right. by eexists.
Qed.

(** ** Auth gate *)

Lemma authMiddleware_eq req next w sub :
  subscription_of req = Some sub →
  authMiddleware req next w =
    match getUserApiKey (munchkinId sub) w with
    | (Ret userApiKey, w1) =>
        if falsy (x_api_key req)
        then (Ret (), emitted (ERespond 401 (RJson "Authorization header missing")) w1)
        else if bool_decide (x_api_key req ≠ Some (template_key userApiKey))
        then (Ret (), emitted (ERespond 401 (RJson "Invalid credentials")) w1)
        else detach next w1
    | (Throw e, w1) => (Throw e, w1)
    end.
Proof.
  unfold subscription_of, authMiddleware. intros Hsub.
  destruct (context (body req)) as [ctx|]; [|done].
  unfold member, mbind, M_bind, mret, M_ret. cbv beta iota. rewrite Hsub.
  destruct (getUserApiKey (munchkinId sub) w) as [[key|e] w1]; [|reflexivity].
  destruct (falsy (x_api_key req)); [reflexivity|].
  case_bool_decide; reflexivity.
Qed.

Lemma authMiddleware_throws req next w :
  subscription_of req = None →
  authMiddleware req next w = (Throw TypeError, w).
Proof.
  unfold subscription_of, authMiddleware. intros Hsub.
  destruct (context (body req)) as [ctx|]; [|reflexivity].
  unfold member, mbind, M_bind, mret, M_ret. cbv beta iota. rewrite Hsub. reflexivity.
Qed.

(** With a stored key, the gate lets through exactly the header equal to it. *)
Lemma gate_accepts_stored_key_iff hdr k :
  gate_rejects hdr (KString k) = false ↔ hdr = Some k ∧ k ≠ "".
Proof.
  unfold gate_rejects. rewrite orb_false_iff, bool_decide_eq_false. simpl. split.
  - intros [Hf Heq]. apply dec_stable in Heq. subst hdr. simpl in Hf.
    by apply bool_decide_eq_false in Hf.
  - intros [-> Hk]. simpl. split; [by apply bool_decide_eq_false|]. auto.
Qed.

(** A missing header is refused whatever is stored. *)
Lemma gate_rejects_missing_header key : gate_rejects None key = true.
Proof. reflexivity. Qed.

(** ** Request handler *)

Lemma responses_app evs1 evs2 : responses (evs1 ++ evs2) = (responses evs1 ++ responses evs2)%list.
Proof. apply filter_app. Qed.

Lemma outside_store_app evs1 evs2 :
  outside_store (evs1 ++ evs2) = (outside_store evs1 ++ outside_store evs2)%list.
Proof. apply filter_app. Qed.

(** The responses are among the events outside the store. *)
Lemma responses_outside_store evs : responses (outside_store evs) = responses evs.
Proof.
  induction evs as [|e evs IH]; [reflexivity|].
  unfold responses, outside_store in *.
  destruct e; rewrite !filter_cons; simpl; rewrite ?filter_cons; simpl; by rewrite IH.
Qed.

Lemma handler_callback_eq req w sub :
  subscription_of req = Some sub →
  handler_callback req w =
    match checkQuota (munchkinId sub) (objectData (body req)) w with
    | (Ret q, w1) =>
        if not_allowed q
        then (Ret (), emitted (ERespond 403 (RJson (message q))) w1)
        else
          let f := artifact_name (munchkinId sub) (now w1) in
          let w2 := called (ESave f (body req)) w1 in
          if next_fault w1 then (Throw BlobError, w2)
          else
            let w3 := emitted ack w2 in
            if next_fault w3 then (Throw NetworkError, called (EPost (notification f)) w3)
            else (Ret (), called (EPost (notification f)) w3)
    | (Throw e, w1) => (Throw e, w1)
    end.
Proof.
  unfold subscription_of, handler_callback. intros Hsub.
  destruct (context (body req)) as [ctx|]; [|done].
  unfold member, mbind, M_bind, mret, M_ret. cbv beta iota. rewrite Hsub.
  destruct (checkQuota (munchkinId sub) (objectData (body req)) w) as [[q|e] w1];
    [|reflexivity].
  destruct (not_allowed q); [reflexivity|].
  unfold date_now, blob_save, respond, axios_post, emit, fallible, mbind, M_bind.
  unfold next_fault, called, emitted.
  do 4 (cbv beta iota zeta; cbn [faults docs now trace]).
  destruct (default false (head (faults w1))); [reflexivity|].
  do 4 (cbv beta iota zeta; cbn [faults docs now trace]).
  destruct (default false (head (tail (faults w1)))); reflexivity.
Qed.

(** The TypeError of [context.subscription.munchkinId] is thrown in
    [authMiddleware], which is awaited: it reaches the [catch]. *)
Lemma submitAsyncAction_throws req w :
  subscription_of req = None →
  submitAsyncAction req w =
    (Ret (), emitted internal_server_error (emitted (EConsoleError TypeError) w)).
Proof.
  intros Hsub. unfold submitAsyncAction, try_catch.
  rewrite authMiddleware_throws by done. reflexivity.
Qed.

(** C10. When the body has no [context], or a [context] without
    [subscription], the handler throws while reading the account identifier,
    before the store is read and before the credential header is tested:
    whatever the header is (missing included), the error is logged and the
    only response is [500 Internal Server Error], not a 401 or a 403. *)
Theorem missing_subscription_answers_500 req w :
  subscription_of req = None →
  ∃ w',
    submitAsyncAction req w = (Ret (), w') ∧
    new_events w w' = [EConsoleError TypeError; internal_server_error] ∧
    responses (new_events w w') = [ERespond 500 (RText "Internal Server Error")] ∧
    docs w' = docs w ∧
    faults w' = faults w.
Proof.
  intros Hsub. rewrite submitAsyncAction_throws by done.
  eexists. split; [reflexivity|].
  assert (new_events w (emitted internal_server_error (emitted (EConsoleError TypeError) w))
          = [EConsoleError TypeError; internal_server_error]) as ->.
  { unfold new_events. simpl. by rewrite <- app_assoc, drop_app_length. }
  done.
Qed.

Lemma missing_subscription_answers_500_witness :
  let req := mkRequest None (mkBody (Some (mkContext None)) (Some ["a"])) in
  let w := world_M1 10 (Some "k") [] in
  ∃ w',
    submitAsyncAction req w = (Ret (), w') ∧
    new_events w w' = [EConsoleError TypeError; internal_server_error] ∧
    responses (new_events w w') = [ERespond 500 (RText "Internal Server Error")] ∧
    docs w' = docs w ∧
    faults w' = faults w.
Proof.
  intros req w. refine (missing_subscription_answers_500 req w _). reflexivity.
Defined.

(** The same without [context] at all, and with a valid credential. *)
Example missing_context_answers_500 :
  let req := mkRequest (Some "k") (mkBody None (Some ["a"])) in
  let w := world_M1 10 (Some "k") [] in
  trace (submitAsyncAction req w).2 =
    [EConsoleError TypeError; ERespond 500 (RText "Internal Server Error")].
Proof. reflexivity. Qed.

(** C4. When the gate refuses the credential (the header is missing, or it
    differs from the stored credential as the gate reads it), the handler
    answers 401 and nothing else: the documents are unchanged, and the run
    issues no quota update, no blob write and no downstream POST. *)
Theorem rejected_request_has_no_side_effects req w sub userApiKey :
  subscription_of req = Some sub →
  (getUserApiKey (munchkinId sub) w).1 = Ret userApiKey →
  gate_rejects (x_api_key req) userApiKey = true →
  ∃ msg w',
    submitAsyncAction req w = (Ret (), w') ∧
    responses (new_events w w') = [ERespond 401 (RJson msg)] ∧
    docs w' = docs w ∧
    ∀ e, e ∈ new_events w w' → is_side_effect e = false.
Proof.
  intros Hsub Hkey Hrej.
  unfold submitAsyncAction, try_catch. rewrite (authMiddleware_eq _ _ _ sub) by done.
  destruct (getUserApiKey_run (munchkinId sub) w)
    as (o & w1 & evs & Hrun & Htr & Hdocs & _ & Hout & Hquiet & _).
  rewrite Hrun in Hkey |- *. simpl in Hkey. subst o.
  unfold gate_rejects in Hrej.
  assert (∀ msg, responses (new_events w (emitted (ERespond 401 (RJson msg)) w1))
                 = [ERespond 401 (RJson msg)]) as Hresp.
  { intros msg. unfold responses, new_events. simpl.
    rewrite Htr, <- app_assoc, drop_app_length, filter_app.
    fold (responses evs). by rewrite <- responses_outside_store, Hout. }
  assert (∀ msg e, e ∈ new_events w (emitted (ERespond 401 (RJson msg)) w1) →
                   is_side_effect e = false) as Hfx.
  { intros msg e. unfold new_events. simpl.
    rewrite Htr, <- app_assoc, drop_app_length.
    intros [He | ->%list_elem_of_singleton]%elem_of_app; [by apply Hquiet|done]. }
  destruct (falsy (x_api_key req)).
  - eexists _, _. split; [reflexivity|]. split; [apply Hresp|]. split; [done|apply Hfx].
  - simpl in Hrej. rewrite Hrej.
    eexists _, _. split; [reflexivity|]. split; [apply Hresp|]. split; [done|apply Hfx].
Qed.

Lemma rejected_request_has_no_side_effects_witness :
  let req := request (Some "wrong") (Some "M1") ["a"; "b"; "c"] in
  let w := world_M1 10 (Some "k") [] in
  ∃ msg w',
    submitAsyncAction req w = (Ret (), w') ∧
    responses (new_events w w') = [ERespond 401 (RJson msg)] ∧
    docs w' = docs w ∧
    ∀ e, e ∈ new_events w w' → is_side_effect e = false.
Proof.
  intros req w.
  refine (rejected_request_has_no_side_effects req w (mkSubscription (Some "M1"))
            (KString "k") _ _ _); reflexivity.
Defined.

(** X22. A request without the credential header changes nothing, whether
    the gate refuses it or the handler throws before the gate. *)
Lemma request_without_header_has_no_side_effects req w :
  x_api_key req = None →
  let w' := (submitAsyncAction req w).2 in
  docs w' = docs w ∧ ∀ e, e ∈ new_events w w' → is_side_effect e = false.
Proof.
  intros Hhdr. destruct (subscription_of req) as [sub|] eqn:Hsub.
  - unfold submitAsyncAction, try_catch. rewrite (authMiddleware_eq _ _ _ sub) by done.
    destruct (getUserApiKey_run (munchkinId sub) w)
      as (o & w1 & evs & -> & Htr & Hdocs & _ & _ & Hquiet & [-> | [key ->]]).
    + simpl. split; [done|].
      intros e. unfold new_events. simpl. rewrite Htr, <- !app_assoc, drop_app_length.
      intros [He | He]%elem_of_app; [by apply Hquiet|].
      apply elem_of_cons in He as [->|He]; [done|].
      by apply list_elem_of_singleton in He as ->.
    + rewrite Hhdr. simpl. split; [done|].
      intros e. unfold new_events. simpl. rewrite Htr, <- app_assoc, drop_app_length.
      intros [He | ->%list_elem_of_singleton]%elem_of_app; [by apply Hquiet|done].
  - rewrite submitAsyncAction_throws by done. simpl. split; [done|].
    intros e. unfold new_events. simpl. rewrite <- app_assoc, drop_app_length.
    intros He. apply elem_of_cons in He as [->|He]; [done|].
    by apply list_elem_of_singleton in He as ->.
Qed.

Lemma checkQuota_outside_store sid objs w :
  ∃ o w' evs,
    checkQuota sid objs w = (o, w') ∧
    trace w' = (trace w ++ evs)%list ∧
    outside_store evs = [] ∧
    (o = Throw TypeError ∨ ∃ d, o = Ret d).
Proof.
  destruct (checkQuota_run sid objs w) as (o & w' & evs & Hrun & Htr & _ & _ & Hcases).
  exists o, w', evs. split; [done|]. split; [done|].
  destruct Hcases as [(-> & _ & d & -> & _) | [(id & -> & _ & Ho) | Hwrite]].
  - split; [done|]. right. by eexists.
  - split; [done|]. destruct Ho as [->|(d & -> & _)]; [by left|right; by eexists].
  - destruct Hwrite as (id & doc & c & _ & _ & _ & _ & -> & Ho). split; [done|].
    destruct Ho as [[[->| ->] _] | [-> _]]; [by left|right; by eexists..].
Qed.

(** The accessor throws nothing but the TypeError of [JSON.stringify], and
    only when the read threw an error that cannot be serialised. *)
Lemma getUserApiKey_throws_inv sid w e w' :
  getUserApiKey sid w = (Throw e, w') →
  e = TypeError ∧
  ∃ id, sid = Some id ∧ id ≠ "" ∧ next_fault w = true ∧ next_opaque w = true.
Proof.
  rewrite getUserApiKey_eq. destruct (truthy sid) as [id|] eqn:Hid; [|done].
  apply truthy_inv in Hid as [-> Hne].
  destruct (next_fault w) eqn:Hf.
  - destruct (next_opaque w) eqn:Ho; [|done]. intros [= <- _].
    split; [done|]. by exists id.
  - destruct (docs w !! id) as [d|]; [|done]. by destruct (ssfs_account_api_key d).
Qed.

(** What a request does outside the document store, in order: one of seven
    sequences.  A response is sent at most once; the 500 comes only with the
    logged TypeError of [authMiddleware], before anything else; the
    downstream POST comes right after the 201; and an error of the callback
    (of its quota check, of the blob write or of the POST) is the rejection
    of a promise that nobody awaits, so it reaches neither [console.error]
    nor a response. *)
Lemma submitAsyncAction_outside_store req w :
  ∃ w' evs,
    submitAsyncAction req w = (Ret (), w') ∧
    trace w' = (trace w ++ evs)%list ∧
    ((outside_store evs = [EConsoleError TypeError; internal_server_error] ∧
      (subscription_of req = None ∨
       ∃ sub id, subscription_of req = Some sub ∧ munchkinId sub = Some id ∧ id ≠ "" ∧
                 next_fault w = true ∧ next_opaque w = true)) ∨
     (∃ msg, outside_store evs = [ERespond 401 (RJson msg)]) ∨
     (∃ msg, outside_store evs = [ERespond 403 (RJson msg)]) ∨
     outside_store evs = [EUnhandledRejection TypeError] ∨
     (∃ f b, outside_store evs = [ESave f b; EUnhandledRejection BlobError]) ∨
     (∃ f b, outside_store evs = [ESave f b; ack; EPost (notification f)]) ∨
     (∃ f b, outside_store evs =
               [ESave f b; ack; EPost (notification f); EUnhandledRejection NetworkError])).
Proof.
  destruct (subscription_of req) as [sub|] eqn:Hsub.
  2:{ rewrite submitAsyncAction_throws by done.
      eexists _, [EConsoleError TypeError; internal_server_error].
      split; [reflexivity|]. split; [simpl; by rewrite <- app_assoc|]. left. split; [done|].
      by left. }
  unfold submitAsyncAction, try_catch. rewrite (authMiddleware_eq _ _ _ sub) by done.
  destruct (getUserApiKey_run (munchkinId sub) w)
    as (o & w1 & evs0 & Hkey & Htr0 & _ & _ & Hout0 & _ & Ho).
  rewrite Hkey. destruct Ho as [-> | [key ->]].
  { apply getUserApiKey_throws_inv in Hkey as (_ & id & Hmid & Hid & Hf & Hopq).
    eexists _, (evs0 ++ [_; _])%list. split; [reflexivity|].
    split; [simpl; by rewrite Htr0, <- !app_assoc|].
    left. rewrite outside_store_app, Hout0. split; [reflexivity|].
    right. by exists sub, id. }
  destruct (falsy (x_api_key req)).
  { eexists _, (evs0 ++ [_])%list. split; [reflexivity|].
    split; [simpl; by rewrite Htr0, <- app_assoc|].
    right; left. eexists. rewrite outside_store_app, Hout0. reflexivity. }
  case_bool_decide.
  { eexists _, (evs0 ++ [_])%list. split; [reflexivity|].
    split; [simpl; by rewrite Htr0, <- app_assoc|].
    right; left. eexists. rewrite outside_store_app, Hout0. reflexivity. }
  unfold detach. rewrite (handler_callback_eq _ _ sub) by done.
  destruct (checkQuota_outside_store (munchkinId sub) (objectData (body req)) w1)
    as (oq & w2 & evs1 & -> & Htr1 & Hout1 & [-> | [q ->]]).
  { eexists _, (evs0 ++ evs1 ++ [_])%list. split; [reflexivity|].
    split; [simpl; by rewrite Htr1, Htr0, <- !app_assoc|].
    do 3 right; left. rewrite !outside_store_app, Hout0, Hout1. reflexivity. }
  destruct (not_allowed q).
  { eexists _, (evs0 ++ evs1 ++ [_])%list. split; [reflexivity|].
    split; [simpl; by rewrite Htr1, Htr0, <- !app_assoc|].
    do 2 right; left. eexists. rewrite !outside_store_app, Hout0, Hout1. reflexivity. }
  cbv zeta. destruct (next_fault w2).
  { eexists _, (evs0 ++ evs1 ++ [_; _])%list. split; [reflexivity|].
    split; [simpl; by rewrite Htr1, Htr0, <- !app_assoc|].
    do 4 right; left. eexists _, _. rewrite !outside_store_app, Hout0, Hout1. reflexivity. }
  destruct (next_fault _).
  { eexists _, (evs0 ++ evs1 ++ [_; _; _; _])%list. split; [reflexivity|].
    split; [simpl; by rewrite Htr1, Htr0, <- !app_assoc|].
    do 6 right. eexists _, _. rewrite !outside_store_app, Hout0, Hout1. reflexivity. }
  eexists _, (evs0 ++ evs1 ++ [_; _; _])%list. split; [reflexivity|].
  split; [simpl; by rewrite Htr1, Htr0, <- !app_assoc|].
  do 5 right; left. eexists _, _. rewrite !outside_store_app, Hout0, Hout1. reflexivity.
Qed.

(** X17. Whatever the request, the store and the faults, the handler
    returns without throwing and the caller is sent at most one response. *)
Lemma submitAsyncAction_responds_at_most_once req w :
  (length (responses (new_events w (submitAsyncAction req w).2)) ≤ 1)%nat.
Proof.
  destruct (submitAsyncAction_outside_store req w) as (w' & evs & -> & Htr & Hshape).
  simpl. unfold new_events. rewrite Htr, drop_app_length.
  rewrite <- responses_outside_store.
  destruct Hshape as [[-> _] | [[msg ->] | [[msg ->] | [-> |
                      [(f & b & ->) | [(f & b & ->) | (f & b & ->)]]]]]];
    simpl; lia.
Qed.

(** X18. When a POST is issued, the response is the 201 and it was sent
    first, right after the blob write; the POST failing or not makes no
    difference to it. *)
Lemma notification_follows_ack req w p :
  let evs := new_events w (submitAsyncAction req w).2 in
  EPost p ∈ evs →
  responses evs = [ack] ∧
  ∃ f b rest,
    outside_store evs = (ESave f b :: ack :: EPost p :: rest)%list ∧
    (rest = [] ∨ rest = [EUnhandledRejection NetworkError]).
Proof.
  destruct (submitAsyncAction_outside_store req w) as (w' & evs & -> & Htr & Hshape).
  simpl. unfold new_events. rewrite Htr, drop_app_length. intros Hin.
  assert (EPost p ∈ outside_store evs) as Hout.
  { apply list_elem_of_filter. done. }
  rewrite <- responses_outside_store.
  destruct Hshape as [[H _] | [[msg H] | [[msg H] | [H |
                      [(f & b & H) | [(f & b & H) | (f & b & H)]]]]]];
    rewrite H in Hout |- *.
  1-5: repeat (apply elem_of_cons in Hout as [Hout|Hout]; [discriminate Hout|]);
       by apply not_elem_of_nil in Hout.
  - split; [reflexivity|]. exists f, b, []. split; [|by left].
    do 2 (apply elem_of_cons in Hout as [Hout|Hout]; [discriminate Hout|]).
    apply list_elem_of_singleton in Hout. by rewrite Hout.
  - split; [reflexivity|]. exists f, b, [EUnhandledRejection NetworkError].
    split; [|by right].
    do 2 (apply elem_of_cons in Hout as [Hout|Hout]; [discriminate Hout|]).
    apply elem_of_cons in Hout as [Hout|Hout]; [by rewrite Hout|].
    apply list_elem_of_singleton in Hout. discriminate Hout.
Qed.

(** X19. [console.error] and the 500 occur only together, as all the
    handler does outside the document store, and only when [authMiddleware]
    itself throws: the body has no [context.subscription], or the key lookup
    threw an error that [JSON.stringify] cannot serialise.  No error of the
    callback reaches them. *)
Lemma console_error_only_before_gate req w e :
  let evs := new_events w (submitAsyncAction req w).2 in
  EConsoleError e ∈ evs ∨ internal_server_error ∈ evs →
  outside_store evs = [EConsoleError TypeError; internal_server_error] ∧
  (subscription_of req = None ∨
   ∃ sub id, subscription_of req = Some sub ∧ munchkinId sub = Some id ∧ id ≠ "" ∧
             next_fault w = true ∧ next_opaque w = true).
Proof.
  destruct (submitAsyncAction_outside_store req w) as (w' & evs & -> & Htr & Hshape).
  simpl. unfold new_events. rewrite Htr, drop_app_length. intros Hin.
  assert (EConsoleError e ∈ outside_store evs ∨ internal_server_error ∈ outside_store evs)
    as Hout.
  { destruct Hin; [left|right]; by apply list_elem_of_filter. }
  destruct Hshape as [[H Hcause] | [[msg H] | [[msg H] | [H |
                      [(f & b & H) | [(f & b & H) | (f & b & H)]]]]]];
    rewrite H in Hout |- *; [done|..].
  all: destruct Hout as [Hout|Hout].
  all: repeat (apply elem_of_cons in Hout as [Hout|Hout]; [discriminate Hout|]).
  all: by apply not_elem_of_nil in Hout.
Qed.

(** ** The gate and the values [getUserApiKey] returns *)

(** Without a stored key the accessor returns [false], which the gate
    compares as the text [false]: that header passes. *)
Lemma authMiddleware_without_stored_key req next w sub id doc :
  subscription_of req = Some sub →
  truthy (munchkinId sub) = Some id →
  docs w !! id = Some doc →
  ssfs_account_api_key doc = None →
  next_fault w = false →
  x_api_key req = Some "false" →
  authMiddleware req next w = detach next (called (EGet id) w).
Proof.
  intros Hsub Hid Hdoc Hkey Hf Hhdr.
  rewrite (authMiddleware_eq _ _ _ sub) by done.
  rewrite getUserApiKey_eq, Hid, Hf, Hdoc, Hkey, Hhdr. reflexivity.
Qed.

(** For an account that is not found the accessor returns an object, which
    the gate compares as the text [[object Object]]: that header passes. *)
Lemma authMiddleware_account_not_found req next w sub id :
  subscription_of req = Some sub →
  truthy (munchkinId sub) = Some id →
  docs w !! id = None →
  next_fault w = false →
  x_api_key req = Some "[object Object]" →
  authMiddleware req next w = detach next (called (EGet id) w).
Proof.
  intros Hsub Hid Hdoc Hf Hhdr.
  rewrite (authMiddleware_eq _ _ _ sub) by done.
  rewrite getUserApiKey_eq, Hid, Hf, Hdoc, Hhdr. reflexivity.
Qed.

(** C2, evaluated where it fails. Account [M1] has no stored credential and
    the header is the text [false]: the request is accepted, answered 201
    and debited.  Account [M2] does not exist and the header is the text
    [[object Object]]: the gate lets the request through to the ledger, and
    the answer is the 403 of the ledger, not a 401. *)
Theorem gate_accepts_text_of_missing_key :
  (let w := world_M1 10 None [] in
   let w' := (submitAsyncAction (request (Some "false") (Some "M1") ["a"; "b"; "c"]) w).2 in
   responses (trace w') = [ack] ∧ docs w' !! "M1" = Some (mkDoc 4 None)) ∧
  (let w := world_M1 10 (Some "k") [] in
   let w' :=
     (submitAsyncAction (request (Some "[object Object]") (Some "M2") ["a"; "b"; "c"]) w).2 in
   trace w' = [EGet "M2"; EGet "M2"; ERespond 403 (RJson "ID not found")]).
Proof. split; [split|]; reflexivity. Qed.

(** ** Acknowledgement and notification *)

(** The first end-to-end scenario: quota 10, three items, the right key. *)
Example accepted_request_scenario :
  let w := world_M1 10 (Some "k") [] in
  let f := "ssfs-ethan-oct16/M1/data-1700000000000.json" in
  let req := request (Some "k") (Some "M1") ["a"; "b"; "c"] in
  let w' := (submitAsyncAction req w).2 in
  trace w' =
    [EGet "M1"; EGet "M1"; EUpdate "M1" 4; ESave f (body req); ack;
     EPost (mkPayload f "ssfs-bucket" "gs://ssfs-bucket/ssfs-ethan-oct16/M1/data-1700000000000.json")] ∧
  docs w' !! "M1" = Some (mkDoc 4 (Some "k")).
Proof. split; reflexivity. Qed.

(** The second end-to-end scenario: quota 4, three items. *)
Example denied_request_scenario :
  let w := world_M1 4 (Some "k") [] in
  let req := request (Some "k") (Some "M1") ["a"; "b"; "c"] in
  let w' := (submitAsyncAction req w).2 in
  trace w' =
    [EGet "M1"; EGet "M1"; ERespond 403 (RJson (quota_exceeded_message 3 4))] ∧
  docs w' !! "M1" = Some (mkDoc 4 (Some "k")).
Proof. split; reflexivity. Qed.

(** C5, evaluated where it fails. An accepted request whose downstream POST
    throws: the 201 is sent before the POST and stays the only response, but
    the error is not logged.  [authMiddleware] calls [next()] without
    awaiting it, so the rejection of the callback never reaches the
    [try]/[catch] of [submitAsyncAction]: [console.error] is not called and
    the rejection stays unhandled. *)
Theorem notification_failure_is_not_logged :
  let w := world_M1 10 (Some "k") [false; false; false; false; true] in
  let f := "ssfs-ethan-oct16/M1/data-1700000000000.json" in
  let req := request (Some "k") (Some "M1") ["a"; "b"; "c"] in
  let w' := (submitAsyncAction req w).2 in
  trace w' =
    [EGet "M1"; EGet "M1"; EUpdate "M1" 4; ESave f (body req); ack;
     EPost (notification f); EUnhandledRejection NetworkError] ∧
  ∀ e, EConsoleError e ∉ trace w'.
Proof.
  intros w f req w'.
  assert (trace w' =
            [EGet "M1"; EGet "M1"; EUpdate "M1" 4; ESave f (body req); ack;
             EPost (notification f); EUnhandledRejection NetworkError]) as Htr
    by (vm_compute; reflexivity).
  split; [exact Htr|]. rewrite Htr. intros e Hin.
  repeat (apply elem_of_cons in Hin as [Hin|Hin]; [discriminate Hin|]).
  by apply not_elem_of_nil in Hin.
Qed.

(** The same for the blob write: when [file.save] throws, the rejection is
    unhandled and the caller gets no response at all. *)
Example blob_failure_is_not_answered :
  let w := world_M1 10 (Some "k") [false; false; false; true] in
  let f := "ssfs-ethan-oct16/M1/data-1700000000000.json" in
  let req := request (Some "k") (Some "M1") ["a"; "b"; "c"] in
  trace (submitAsyncAction req w).2 =
    [EGet "M1"; EGet "M1"; EUpdate "M1" 4; ESave f (body req);
     EUnhandledRejection BlobError].
Proof. reflexivity. Qed.

(** ** Debits of one account by two requests *)

(** A call run alone, step after step, is [checkQuota]. *)
Lemma ledger_steps_checkQuota sid objs w :
  (l ← ledger_step (LCall sid objs); ledger_step l) w =
  (d ← checkQuota sid objs; mret (LDone d)) w.
Proof.
  unfold mbind, M_bind. rewrite checkQuota_eq. unfold ledger_step at 1.
  destruct (truthy sid) as [id|]; [|reflexivity].
  unfold try_catch at 1, mbind at 1, M_bind at 1, member.
  destruct objs as [data|]; [|reflexivity].
  unfold mret at 1, M_ret at 1. cbv zeta.
  case_bool_decide; [reflexivity|].
  unfold mbind, M_bind. rewrite store_get_eq.
  destruct (next_fault w); [by destruct (next_opaque w)|].
  unfold mret, M_ret, ledger_step, try_catch.
  destruct (docs w !! id) as [d|] eqn:Hd; [|reflexivity].
  case_bool_decide; [|reflexivity].
  unfold mbind, M_bind. rewrite store_update_eq.
  destruct (next_fault (called (EGet id) w));
    [by destruct (next_opaque (called (EGet id) w))|].
  simpl. rewrite Hd. reflexivity.
Qed.

Lemma interleave_serial p q w :
  interleave serial p q w =
  match (l ← ledger_step p; ledger_step l) w with
  | (Ret p', w1) =>
      match (l ← ledger_step q; ledger_step l) w1 with
      | (Ret q', w2) => (Ret (p', q'), w2)
      | (Throw e, w2) => (Throw e, w2)
      end
  | (Throw e, w1) => (Throw e, w1)
  end.
Proof.
  unfold serial, interleave, mbind, M_bind, mret, M_ret.
  destruct (ledger_step p w) as [[p1|e] w1]; [|reflexivity].
  destruct (ledger_step p1 w1) as [[p2|e] w2]; [|reflexivity].
  destruct (ledger_step q w2) as [[q1|e] w3]; [|reflexivity].
  destruct (ledger_step q1 w3) as [[q2|e] w4]; reflexivity.
Qed.

(** C9, as stated: quota 10, two batches of three items, each call reading
    before the other writes.  Both debits are allowed although they cost 12
    together, and the stored quota ends at 4: one debit is lost. *)
Lemma concurrent_debits_counterexample :
  (let w := world_M1 10 (Some "k") [] in
   let call := LCall (Some "M1") (Some ["a"; "b"; "c"]) in
   ∃ w', interleave [false; true; false; true] call call w
           = (Ret (LDone (success 6 4), LDone (success 6 4)), w') ∧
         docs w' !! "M1" = Some (mkDoc 4 (Some "k"))) ∧
  ¬ debits_never_overspend.
Proof.
  set (w := world_M1 10 (Some "k") []).
  set (call := LCall (Some "M1") (Some ["a"; "b"; "c"])).
  assert (interleave [false; true; false; true] call call w
          = (Ret (LDone (success 6 4), LDone (success 6 4)),
             (interleave [false; true; false; true] call call w).2)) as Hrun
    by (vm_compute; reflexivity).
  split.
  - eexists. split; [exact Hrun|]. vm_compute. reflexivity.
  - intros Hclaim.
    assert (docs w !! "M1" = Some (mkDoc 10 (Some "k"))) as Hdoc by (vm_compute; reflexivity).
    specialize (Hclaim _ _ _ _ _ _ _ _ _ _ Hdoc Hrun eq_refl eq_refl).
    simpl in Hclaim. unfold serviceCostPerLead in Hclaim. lia.
Qed.

(** C9, amended. [checkQuota] reads the quota and writes it back in two
    separate store calls.  When the two debits do not overlap (the first
    call finishes before the second starts) and the stored quota is a safe
    integer, they are both allowed only if the stored quota exceeds their
    combined cost, and then both are subtracted from it. *)
Theorem serial_debits_never_overspend w id Q key objs1 objs2 d1 d2 w' :
  docs w !! id = Some (mkDoc Q key) →
  safe_integer Q →
  interleave serial (LCall (Some id) (Some objs1)) (LCall (Some id) (Some objs2)) w
    = (Ret (LDone d1, LDone d2), w') →
  allowed d1 = Some true →
  allowed d2 = Some true →
  let c1 := Z.of_nat (length objs1) * serviceCostPerLead in
  let c2 := Z.of_nat (length objs2) * serviceCostPerLead in
  c1 + c2 < Q ∧ docs w' !! id = Some (mkDoc (Q - c1 - c2) key).
Proof.
  intros Hdoc Hsafe Hrun Ha1 Ha2 c1 c2.
  rewrite interleave_serial, ledger_steps_checkQuota in Hrun.
  unfold mbind at 1, M_bind at 1 in Hrun.
  destruct (checkQuota (Some id) (Some objs1) w) as [[q1|?] w1] eqn:Hrun1; [|done].
  unfold mret at 1, M_ret at 1 in Hrun.
  rewrite ledger_steps_checkQuota in Hrun.
  unfold mbind, M_bind in Hrun.
  destruct (checkQuota (Some id) (Some objs2) w1) as [[q2|?] w2] eqn:Hrun2; [|done].
  unfold mret, M_ret in Hrun. injection Hrun as -> -> ->.
  apply checkQuota_allowed_inv in Hrun1
    as (i1 & data1 & doc1 & Hi1 & [= <-] & Hn1 & Hdoc1 & Hq1 & _ & Hdocs1 & _); [|done].
  apply truthy_inv in Hi1 as [[= <-] Hne].
  rewrite Hdoc in Hdoc1. injection Hdoc1 as <-. simpl in Hq1, Hdocs1. fold c1 in Hq1, Hdocs1.
  assert (0 < c1) as Hc1 by (unfold c1, serviceCostPerLead; lia).
  rewrite (js_minus_safe Q c1) in Hdocs1 by (done || lia).
  apply checkQuota_allowed_inv in Hrun2
    as (i2 & data2 & doc2 & Hi2 & [= <-] & Hn2 & Hdoc2 & Hq2 & _ & Hdocs2 & _); [|done].
  apply truthy_inv in Hi2 as [[= <-] _].
  rewrite Hdocs1, lookup_insert_eq in Hdoc2. injection Hdoc2 as <-.
  simpl in Hq2, Hdocs2. fold c2 in Hq2, Hdocs2.
  assert (0 < c2) as Hc2 by (unfold c2, serviceCostPerLead; lia).
  rewrite (js_minus_safe (Q - c1) c2) in Hdocs2
    by (done || lia || (destruct Hsafe; unfold safe_integer; lia)).
  split; [lia|]. rewrite Hdocs2, lookup_insert_eq. reflexivity.
Qed.

Lemma serial_debits_never_overspend_witness :
  let w := world_M1 20 (Some "k") [] in
  ∃ w',
    interleave serial (LCall (Some "M1") (Some ["a"; "b"; "c"]))
      (LCall (Some "M1") (Some ["a"; "b"; "c"])) w
      = (Ret (LDone (success 6 14), LDone (success 6 8)), w') ∧
    6 + 6 < 20 ∧ docs w' !! "M1" = Some (mkDoc (20 - 6 - 6) (Some "k")).
Proof.
  intros w.
  assert (interleave serial (LCall (Some "M1") (Some ["a"; "b"; "c"]))
            (LCall (Some "M1") (Some ["a"; "b"; "c"])) w
          = (Ret (LDone (success 6 14), LDone (success 6 8)),
             (interleave serial (LCall (Some "M1") (Some ["a"; "b"; "c"]))
                (LCall (Some "M1") (Some ["a"; "b"; "c"])) w).2)) as Hrun
    by (vm_compute; reflexivity).
  eexists. split; [exact Hrun|].
  refine (serial_debits_never_overspend w "M1" 20 (Some "k") ["a"; "b"; "c"] ["a"; "b"; "c"]
            (success 6 14) (success 6 8) _ _ _ Hrun _ _).
  - vm_compute. reflexivity.
  - unfold safe_integer. lia.
  - reflexivity.
  - reflexivity.
Defined.

(** The same two batches against a quota of 10, one after the other: the
    second is refused. *)
Example serial_debits_scenario :
  let w := world_M1 10 (Some "k") [] in
  let call := LCall (Some "M1") (Some ["a"; "b"; "c"]) in
  ∃ w', interleave serial call call w
          = (Ret (LDone (success 6 4), LDone (quota_exceeded 3 4)), w') ∧
        docs w' !! "M1" = Some (mkDoc 4 (Some "k")).
Proof. eexists. split; reflexivity. Qed.

(** * Further properties of the code *)

(** ** Quota ledger: what a call can change *)

Lemma checkQuota_refused_docs sid objs w o w' :
  checkQuota sid objs w = (o, w') →
  (∀ d, o = Ret d → allowed d ≠ Some true) →
  docs w' = docs w.
Proof.
  destruct (checkQuota_run sid objs w) as (o0 & w0 & evs & -> & _ & _ & _ & Hcases).
  intros [= <- <-] Hd.
  destruct Hcases as [(_ & ? & _) | [(id & _ & ? & _) | Hwrite]]; [done..|].
  destruct Hwrite as (id & doc & c & _ & _ & _ & _ & _ & [(_ & ?) | (-> & _)]); [done|].
  by destruct (Hd _ eq_refl).
Qed.

Lemma quotas_safe_singleton id Q key : safe_integer Q → quotas_safe {[ id := mkDoc Q key ]}.
Proof. by intros HQ i d [_ <-]%lookup_singleton_Some. Qed.

Lemma safe_integer_small z : -1000000 < z < 1000000 → safe_integer z.
Proof. unfold safe_integer. lia. Qed.

(** X1. With every stored quota a safe integer (magnitude below 2^53) and
    whatever the fault schedule, a decision with [allowed: true] is returned
    only after the debit was written: the stored quota [Q] was above the
    cost [c] of the batch (two credits per item, at least one item), the
    document now holds [Q - c], and the decision reports [usedQuota = c] and
    [remainingQuota = Q - c]. *)
Theorem allowed_decision_means_debit_written sid objs w d w' :
  quotas_safe (docs w) →
  checkQuota sid objs w = (Ret d, w') →
  allowed d = Some true →
  ∃ id data Q key,
    let c := Z.of_nat (length data) * serviceCostPerLead in
    sid = Some id ∧ objs = Some data ∧
    docs w !! id = Some (mkDoc Q key) ∧
    0 < c ∧ c < Q ∧
    usedQuota d = Some c ∧
    remainingQuota d = Some (Q - c) ∧
    docs w' !! id = Some (mkDoc (Q - c) key).
Proof.
  intros Hsafe Hrun Hd.
  apply checkQuota_allowed_inv in Hrun
    as (id & data & [Q key] & Hid & -> & Hn & Hdoc & HQ & -> & Hdocs & _); [|done].
  apply truthy_inv in Hid as [-> _]. simpl in *.
  pose proof (Hsafe _ _ Hdoc) as HsQ. simpl in HsQ.
  assert (0 < Z.of_nat (length data) * serviceCostPerLead) as Hc
    by (unfold serviceCostPerLead; lia).
  rewrite js_minus_safe in * by (done || lia).
  exists id, data, Q, key. simpl. rewrite Hdocs, lookup_insert_eq.
  repeat split; try done; lia.
Qed.

Lemma allowed_decision_means_debit_written_witness :
  ∃ id data Q key,
    let c := Z.of_nat (length data) * serviceCostPerLead in
    Some "M1" = Some id ∧ Some ["a"; "b"; "c"] = Some data ∧
    docs (world_M1 10 (Some "k") [false; false; true]) !! id = Some (mkDoc Q key) ∧
    0 < c ∧ c < Q ∧
    usedQuota (success 6 4) = Some c ∧
    remainingQuota (success 6 4) = Some (Q - c) ∧
    docs (checkQuota (Some "M1") (Some ["a"; "b"; "c"])
            (world_M1 10 (Some "k") [false; false; true])).2 !! id = Some (mkDoc (Q - c) key).
Proof.
  refine (allowed_decision_means_debit_written (Some "M1") (Some ["a"; "b"; "c"])
            (world_M1 10 (Some "k") [false; false; true]) (success 6 4) _ _ _ _).
  - apply quotas_safe_singleton, safe_integer_small. lia.
  - reflexivity.
  - reflexivity.
Defined.

(** X2. With every stored quota a safe integer (magnitude below 2^53), a
    call that returns a decision changes the stored documents exactly when
    the decision is [allowed: true]: a refusal, and a call whose read or
    write threw, leave every document as it was. *)
Theorem documents_change_iff_allowed sid objs w d w' :
  quotas_safe (docs w) →
  checkQuota sid objs w = (Ret d, w') →
  (docs w' = docs w ↔ allowed d ≠ Some true).
Proof.
  intros Hsafe Hrun. split.
  2:{ intros Hd. apply (checkQuota_refused_docs _ _ _ _ _ Hrun). by intros ? [= <-]. }
  intros Hsame Hd.
  apply checkQuota_allowed_inv in Hrun
    as (id & data & doc & _ & _ & Hn & Hdoc & Hq & _ & Hdocs & _); [|done].
  assert (docs w' !! id = docs w !! id) as Hlook by (by rewrite Hsame).
  rewrite Hdocs, lookup_insert_eq, Hdoc in Hlook.
  pose proof (Hsafe _ _ Hdoc) as HsQ.
  injection Hlook as Hlook. destruct doc as [Q key]. simpl in *.
  injection Hlook as Hlook. unfold serviceCostPerLead in *.
  rewrite js_minus_safe in Hlook by (done || lia). lia.
Qed.

Lemma documents_change_iff_allowed_witness :
  let w := world_M1 4 (Some "k") [] in
  docs (called (EGet "M1") w) = docs w ↔ allowed (quota_exceeded 3 4) ≠ Some true.
Proof.
  intros w.
  refine (documents_change_iff_allowed (Some "M1") (Some ["a"; "b"; "c"]) w
            (quota_exceeded 3 4) (called (EGet "M1") w) _ _).
  - apply quotas_safe_singleton, safe_integer_small. lia.
  - reflexivity.
Defined.

(** Without the bound the equivalence fails: at a quota of 2^55 the request
    is allowed and the documents are as they were. *)
Example documents_unchanged_by_allowed_debit :
  let w := world_M1 (2 ^ 55) (Some "k") [] in
  ∃ d w', checkQuota (Some "M1") (Some ["a"]) w = (Ret d, w') ∧
          allowed d = Some true ∧ docs w' = docs w.
Proof. eexists _, _. split; [vm_compute; reflexivity|]. split; vm_compute; reflexivity. Qed.

(** X3. A call never creates or deletes a document, never changes a stored
    key, and leaves the documents of all other accounts as they were. *)
Theorem checkQuota_touches_only_own_quota sid objs w j :
  let w' := (checkQuota sid objs w).2 in
  ssfs_account_api_key <$> docs w' !! j = ssfs_account_api_key <$> docs w !! j ∧
  (sid ≠ Some j → docs w' !! j = docs w !! j).
Proof.
  destruct (checkQuota_run sid objs w) as (d & w' & evs & -> & _ & _ & _ & Hcases).
  simpl.
  destruct Hcases as [(_ & -> & _) | [(id & _ & -> & _) | Hwrite]]; [done..|].
  destruct Hwrite as (id & doc & c & Hid & Hdoc & _ & _ & _ & [(_ & ->) | (_ & ->)]); [done|].
  apply truthy_inv in Hid as [-> _].
  destruct (decide (id = j)) as [<-|Hne].
  - rewrite lookup_insert_eq, Hdoc. split; [done|]. congruence.
  - rewrite lookup_insert_ne by done. done.
Qed.

Lemma checkQuota_touches_only_own_quota_witness :
  let w := mkWorld {[ "M1" := mkDoc 10 (Some "k"); "M2" := mkDoc 7 None ]} [] [] 0 [] in
  let w' := (checkQuota (Some "M1") (Some ["a"; "b"; "c"]) w).2 in
  ssfs_account_api_key <$> docs w' !! "M2" = ssfs_account_api_key <$> docs w !! "M2" ∧
  docs w' !! "M2" = docs w !! "M2".
Proof.
  intros w w'.
  pose proof (checkQuota_touches_only_own_quota (Some "M1") (Some ["a"; "b"; "c"]) w "M2")
    as [Hkey Hother].
  split; [exact Hkey|]. apply Hother. discriminate.
Defined.

(** ** Identity store accessor: what it returns *)



(** The three ends of the accessor on a read that throws or answers. *)
Example getUserApiKey_scenarios :
  (getUserApiKey (Some "M1") (world_M1 10 (Some "k") [])).1 = Ret (KString "k") ∧
  (getUserApiKey (Some "M1") (world_M1 10 (Some "k") [true])).1 = Ret KFalse ∧
  (getUserApiKey (Some "M1") (with_opaque [true] (world_M1 10 (Some "k") [true]))).1
  = Throw TypeError.
Proof. repeat split. Qed.

(** X5. The accessor returns a key string exactly when the identifier is
    non-empty, the read succeeds and the document exists with a key stored:
    the string is then the stored key. *)
Theorem getUserApiKey_returns_stored_key sid w k :
  (getUserApiKey sid w).1 = Ret (KString k) ↔
  ∃ id doc,
    sid = Some id ∧ id ≠ "" ∧ next_fault w = false ∧
    docs w !! id = Some doc ∧ ssfs_account_api_key doc = Some k.
Proof.
  rewrite getUserApiKey_eq. split.
  - destruct (truthy sid) as [id|] eqn:Hid; [|done].
    apply truthy_inv in Hid as [-> Hne]. simpl.
    destruct (next_fault w) eqn:Hf; [by destruct (next_opaque w)|].
    destruct (docs w !! id) as [doc|] eqn:Hdoc; [|done].
    destruct (ssfs_account_api_key doc) as [k'|] eqn:Hk; [|done].
    intros [= ->]. by exists id, doc.
  - intros (id & doc & -> & Hne & Hf & Hdoc & Hk).
    rewrite truthy_Some by done. simpl. by rewrite Hf, Hdoc, Hk.
Qed.

(** ** Auth gate: the stored key *)

(** X6. For an account with a stored key [k] and a store that answers, the
    gate runs the callback exactly when the header is [k] and [k] is not
    empty; every other header, and no header, gets a 401 and the callback is
    not run.  With an empty stored key nothing is accepted. *)
Theorem gate_accepts_exactly_stored_key req next w sub id doc k :
  subscription_of req = Some sub →
  munchkinId sub = Some id →
  id ≠ "" →
  next_fault w = false →
  docs w !! id = Some doc →
  ssfs_account_api_key doc = Some k →
  (x_api_key req = Some k ∧ k ≠ "" →
     authMiddleware req next w = detach next (called (EGet id) w)) ∧
  (¬ (x_api_key req = Some k ∧ k ≠ "") →
     ∃ msg, authMiddleware req next w
            = (Ret (), emitted (ERespond 401 (RJson msg)) (called (EGet id) w))).
Proof.
  intros Hsub Hmid Hid Hf Hdoc Hk.
  rewrite (authMiddleware_eq _ _ _ sub) by done.
  rewrite getUserApiKey_eq, Hmid, truthy_Some, Hf, Hdoc, Hk by done.
  simpl template_key. split.
  - intros [-> Hne]. simpl. rewrite bool_decide_false by done.
    rewrite bool_decide_false; [done|]. by intros ?.
  - intros Hno. destruct (falsy (x_api_key req)) eqn:Hfalsy; [by eexists|].
    case_bool_decide as Hhdr; [by eexists|].
    destruct Hno. split; [done|].
    rewrite Hhdr in Hfalsy. simpl in Hfalsy. by apply bool_decide_eq_false in Hfalsy.
Qed.

Lemma gate_accepts_exactly_stored_key_witness :
  let req := request (Some "k") (Some "M1") ["a"] in
  let w := world_M1 10 (Some "k") [] in
  (x_api_key req = Some "k" ∧ "k" ≠ "" →
     authMiddleware req (mret ()) w = detach (mret ()) (called (EGet "M1") w)) ∧
  (¬ (x_api_key req = Some "k" ∧ "k" ≠ "") →
     ∃ msg, authMiddleware req (mret ()) w
            = (Ret (), emitted (ERespond 401 (RJson msg)) (called (EGet "M1") w))).
Proof.
  intros req w.
  refine (gate_accepts_exactly_stored_key req (mret ()) w (mkSubscription (Some "M1")) "M1"
            (mkDoc 10 (Some "k")) "k" _ _ _ _ _ _); done.
Defined.

(** X7. While the key lookup throws an error that [JSON.stringify] can
    serialise, the gate compares the header with the text [false]: a request
    with that header is let through, for any account, also one that has a
    key stored, and any other header is refused, the stored key included.
    When the error cannot be serialised, the [catch] block of
    [getUserApiKey] throws and the gate rejects with that TypeError, for
    every header: no 401 is sent and the callback is not run. *)
Theorem gate_during_store_outage req next w sub id :
  subscription_of req = Some sub →
  munchkinId sub = Some id →
  id ≠ "" →
  next_fault w = true →
  (next_opaque w = false →
     (x_api_key req = Some "false" →
        authMiddleware req next w = detach next (called (EGet id) w)) ∧
     (x_api_key req ≠ Some "false" →
        ∃ msg, authMiddleware req next w
               = (Ret (), emitted (ERespond 401 (RJson msg)) (called (EGet id) w)))) ∧
  (next_opaque w = true →
     authMiddleware req next w = (Throw TypeError, called (EGet id) w)).
Proof.
  intros Hsub Hmid Hid Hf.
  rewrite (authMiddleware_eq _ _ _ sub) by done.
  rewrite Hmid, getUserApiKey_eq, truthy_Some, Hf by done. split.
  - intros ->. simpl. split.
    + by intros ->.
    + intros Hhdr. destruct (falsy (x_api_key req)); [by eexists|].
      rewrite bool_decide_true by done. by eexists.
  - by intros ->.
Qed.

Lemma gate_during_store_outage_witness :
  let req := request (Some "false") (Some "M1") ["a"] in
  let w := world_M1 10 (Some "k") [true] in
  (next_opaque w = false →
     (x_api_key req = Some "false" →
        authMiddleware req (mret ()) w = detach (mret ()) (called (EGet "M1") w)) ∧
     (x_api_key req ≠ Some "false" →
        ∃ msg, authMiddleware req (mret ()) w
               = (Ret (), emitted (ERespond 401 (RJson msg)) (called (EGet "M1") w)))) ∧
  (next_opaque w = true →
     authMiddleware req (mret ()) w = (Throw TypeError, called (EGet "M1") w)).
Proof.
  intros req w.
  refine (gate_during_store_outage req (mret ()) w (mkSubscription (Some "M1")) "M1" _ _ _ _);
    done.
Defined.

(** The two cases of the gate during an outage, evaluated. *)
Example gate_during_store_outage_scenario :
  let req := request (Some "false") (Some "M1") ["a"] in
  authMiddleware req (mret ()) (world_M1 10 (Some "k") [true])
  = (Ret (), called (EGet "M1") (world_M1 10 (Some "k") [true])) ∧
  authMiddleware req (mret ()) (with_opaque [true] (world_M1 10 (Some "k") [true]))
  = (Throw TypeError, called (EGet "M1") (with_opaque [true] (world_M1 10 (Some "k") [true]))).
Proof. split; vm_compute; reflexivity. Qed.

(** ** Request handler: a request that presents the stored key *)

Arguments artifact_name : simpl never.
Arguments notification : simpl never.
Arguments quota_exceeded_message : simpl never.

Lemma calm_emitted e w : calm w → calm (emitted e w).
Proof. done. Qed.

Lemma calm_with_docs ds w : calm w → calm (with_docs ds w).
Proof. done. Qed.

Ltac solve_calm :=
  repeat first [assumption | apply calm_called | apply calm_emitted | apply calm_with_docs].

(** The events a run added, read off a trace that extends the old one. *)
Lemma new_events_app w w' evs :
  trace w' = (trace w ++ evs)%list → new_events w w' = evs.
Proof. intros Htr. unfold new_events. by rewrite Htr, drop_app_length. Qed.

Section PresentedStoredKey.

Context (w : World) (id k : string) (Q : Z).
Hypothesis Hid : id ≠ "".
Hypothesis Hk : k ≠ "".
Hypothesis Hdoc : docs w !! id = Some (mkDoc Q (Some k)).

(** Past the gate: the handler is its callback, started after the key
    lookup, with nobody waiting for it. *)
Lemma submitAsyncAction_past_gate objectData :
  next_fault w = false →
  submitAsyncAction (envelope (Some k) (Some id) objectData) w =
  detach (handler_callback (envelope (Some k) (Some id) objectData)) (called (EGet id) w).
Proof using Hid Hk Hdoc.
  intros Hf. unfold submitAsyncAction, try_catch.
  rewrite (authMiddleware_eq _ _ _ (mkSubscription (Some id))) by done.
  rewrite getUserApiKey_eq. simpl munchkinId. rewrite truthy_Some, Hf, Hdoc by done.
  simpl. rewrite bool_decide_false by done.
  rewrite bool_decide_false by (by intros ?).
  unfold detach.
  by destruct (handler_callback (envelope (Some k) (Some id) objectData) (called (EGet id) w))
    as [[[]|e] w1].
Qed.

(** X8. An empty batch is answered 403 [At least one object is required]
    whatever the quota: after the key lookup no store call is made and no
    document changes. *)
Theorem empty_batch_answers_403 :
  next_fault w = false →
  submitAsyncAction (envelope (Some k) (Some id) (Some [])) w =
  (Ret (), emitted (ERespond 403 (RJson "At least one object is required"))
             (called (EGet id) w)).
Proof using Hid Hk Hdoc.
  intros Hf. rewrite submitAsyncAction_past_gate by done. unfold detach.
  rewrite (handler_callback_eq _ _ (mkSubscription (Some id))) by done.
  rewrite checkQuota_eq. simpl munchkinId. rewrite truthy_Some by done. reflexivity.
Qed.

(** X9. A body without [objectData] is answered 403
    [Internal Server Error], not 500: the TypeError of [objectData.length] is
    caught inside [checkQuota], before any store call of the ledger. *)
Theorem missing_objectData_answers_403 :
  next_fault w = false →
  submitAsyncAction (envelope (Some k) (Some id) None) w =
  (Ret (), emitted (ERespond 403 (RJson "Internal Server Error")) (called (EGet id) w)).
Proof using Hid Hk Hdoc.
  intros Hf. rewrite submitAsyncAction_past_gate by done. unfold detach.
  rewrite (handler_callback_eq _ _ (mkSubscription (Some id))) by done.
  rewrite checkQuota_eq. simpl munchkinId. rewrite truthy_Some by done. reflexivity.
Qed.

Section Batch.

Context (objs : list Item).
Hypothesis Hn : 1 ≤ Z.of_nat (length objs).
Hypothesis HsQ : safe_integer Q.

Let req := envelope (Some k) (Some id) (Some objs).
Let c := Z.of_nat (length objs) * serviceCostPerLead.
Let f := artifact_name (Some id) (now w).

(** X10. With a store that answers and a quota [Q] above the cost [c], [Q]
    a safe integer (magnitude below 2^53), the run is: key lookup, quota
    read, debit, blob write of the request body under
    [ssfs-ethan-oct16/<id>/data-<now>.json], the 201, then the POST naming
    that file; the account holds [Q - c] and keeps its key. *)
Theorem accepted_request_run :
  calm w →
  Q > c →
  let w' := (submitAsyncAction req w).2 in
  new_events w w' =
    [EGet id; EGet id; EUpdate id (Q - c); ESave f (body req); ack; EPost (notification f)] ∧
  docs w' = <[id := mkDoc (Q - c) (Some k)]> (docs w).
Proof using Hid Hk Hdoc Hn HsQ.
  intros Hcalm HQ. unfold req.
  assert (0 < c) as Hc by (unfold c, serviceCostPerLead; lia).
  rewrite submitAsyncAction_past_gate by (by apply calm_next_fault). unfold detach.
  rewrite (handler_callback_eq _ _ (mkSubscription (Some id))) by done.
  rewrite checkQuota_eq. simpl munchkinId. simpl objectData.
  rewrite truthy_Some by done. cbv zeta.
  rewrite bool_decide_false by lia.
  rewrite calm_next_fault by solve_calm.
  change (docs (called (EGet id) w)) with (docs w). rewrite Hdoc. simpl quota.
  fold c. rewrite bool_decide_true by done.
  rewrite (js_minus_safe Q c) by (done || lia).
  rewrite calm_next_fault by solve_calm.
  simpl not_allowed. cbv iota.
  rewrite calm_next_fault by solve_calm.
  rewrite calm_next_fault by solve_calm.
  simpl. split; [|done].
  apply new_events_app. simpl. by rewrite <- !app_assoc.
Qed.

(** X11. With a store that answers and a quota that does not exceed the
    cost, the run is: key lookup, quota read, then the 403 with the message
    of the ledger; nothing is written, stored or posted. *)
Theorem denied_request_run :
  calm w →
  Q ≤ c →
  let w' := (submitAsyncAction req w).2 in
  new_events w w' =
    [EGet id; EGet id;
     ERespond 403 (RJson (quota_exceeded_message (Z.of_nat (length objs)) Q))] ∧
  docs w' = docs w.
Proof using Hid Hk Hdoc Hn.
  intros Hcalm HQ. unfold req.
  rewrite submitAsyncAction_past_gate by (by apply calm_next_fault). unfold detach.
  rewrite (handler_callback_eq _ _ (mkSubscription (Some id))) by done.
  rewrite checkQuota_eq. simpl munchkinId. simpl objectData.
  rewrite truthy_Some by done. cbv zeta.
  rewrite bool_decide_false by lia.
  rewrite calm_next_fault by solve_calm.
  change (docs (called (EGet id) w)) with (docs w). rewrite Hdoc. simpl quota.
  fold c. rewrite bool_decide_false by lia.
  simpl. split; [|done].
  apply new_events_app. simpl. by rewrite <- !app_assoc.
Qed.

(** X12. The debit comes before the blob write and is not undone: when
    [file.save] throws (the quota [Q] a safe integer above the cost [c]),
    the account has paid [c] and holds [Q - c], nothing was stored, the
    caller gets no response, and the error is an unhandled rejection. *)
Theorem failed_blob_write_keeps_debit fs :
  faults w = false :: false :: false :: true :: fs →
  Q > c →
  let w' := (submitAsyncAction req w).2 in
  new_events w w' =
    [EGet id; EGet id; EUpdate id (Q - c); ESave f (body req);
     EUnhandledRejection BlobError] ∧
  responses (new_events w w') = [] ∧
  docs w' !! id = Some (mkDoc (Q - c) (Some k)).
Proof using Hid Hk Hdoc Hn HsQ.
  intros Hfs HQ.
  assert (0 < c) as Hc by (unfold c, serviceCostPerLead; lia).
  assert (next_fault w = false) as H0 by (unfold next_fault; by rewrite Hfs).
  assert (∀ e1, next_fault (called e1 w) = false) as H1
    by (intros; unfold next_fault; simpl; by rewrite Hfs).
  assert (∀ e1 e2, next_fault (called e2 (called e1 w)) = false) as H2
    by (intros; unfold next_fault; simpl; by rewrite Hfs).
  assert (∀ ds e1 e2 e3,
            next_fault (with_docs ds (called e3 (called e2 (called e1 w)))) = true) as H3
    by (intros; unfold next_fault; simpl; by rewrite Hfs).
  unfold req. rewrite submitAsyncAction_past_gate by done. unfold detach.
  rewrite (handler_callback_eq _ _ (mkSubscription (Some id))) by done.
  rewrite checkQuota_eq. simpl munchkinId. simpl objectData.
  rewrite truthy_Some by done. cbv zeta.
  rewrite bool_decide_false by lia. rewrite H1.
  change (docs (called (EGet id) w)) with (docs w). rewrite Hdoc. simpl quota.
  fold c. rewrite bool_decide_true by done. rewrite H2.
  rewrite (js_minus_safe Q c) by (done || lia).
  simpl not_allowed. cbv iota. rewrite H3. simpl snd.
  match goal with
  | |- new_events w ?W = ?evs ∧ _ =>
      assert (new_events w W = evs) as Hev
        by (apply new_events_app; simpl; by rewrite <- !app_assoc)
  end.
  rewrite Hev. split; [done|]. split; [done|]. simpl. by rewrite lookup_insert_eq.
Qed.

(** X13. A store call of the ledger that throws an error that
    [JSON.stringify] can serialise is answered 403 [Internal Server Error],
    not 500, and the quota is not debited: the read throwing, or (with a
    quota above the cost) the write throwing. *)
Theorem ledger_store_error_answers_403 fs :
  serialisable w →
  faults w = false :: true :: fs ∨ (faults w = false :: false :: true :: fs ∧ Q > c) →
  let w' := (submitAsyncAction req w).2 in
  responses (new_events w w') = [ERespond 403 (RJson "Internal Server Error")] ∧
  docs w' = docs w.
Proof using Hid Hk Hdoc Hn.
  intros Hser Hfs.
  assert (next_fault w = false) as H0
    by (unfold next_fault; by destruct Hfs as [-> | [-> _]]).
  assert (∀ e1, next_opaque (called e1 w) = false) as Ho1
    by (intros; by apply serialisable_next_opaque, serialisable_called).
  assert (∀ e1 e2, next_opaque (called e2 (called e1 w)) = false) as Ho2
    by (intros; by apply serialisable_next_opaque, serialisable_called, serialisable_called).
  unfold req. rewrite submitAsyncAction_past_gate by done. unfold detach.
  rewrite (handler_callback_eq _ _ (mkSubscription (Some id))) by done.
  rewrite checkQuota_eq. simpl munchkinId. simpl objectData.
  rewrite truthy_Some by done. cbv zeta.
  rewrite bool_decide_false by lia.
  destruct Hfs as [Hfs | [Hfs HQ]].
  - assert (∀ e1, next_fault (called e1 w) = true) as H1
      by (intros; unfold next_fault; simpl; by rewrite Hfs).
    rewrite H1, Ho1. simpl. split; [|done].
    rewrite (new_events_app _ _ [EGet id; EGet id; ERespond 403 (RJson "Internal Server Error")]);
      [done|]. simpl. by rewrite <- !app_assoc.
  - assert (∀ e1, next_fault (called e1 w) = false) as H1
      by (intros; unfold next_fault; simpl; by rewrite Hfs).
    assert (∀ e1 e2, next_fault (called e2 (called e1 w)) = true) as H2
      by (intros; unfold next_fault; simpl; by rewrite Hfs).
    rewrite H1.
    change (docs (called (EGet id) w)) with (docs w). rewrite Hdoc. simpl quota.
    fold c. rewrite bool_decide_true by done. rewrite H2, Ho2. simpl. split; [|done].
    rewrite (new_events_app _ _ [EGet id; EGet id; EUpdate id (js_minus Q c);
                                 ERespond 403 (RJson "Internal Server Error")]);
      [done|]. simpl. by rewrite <- !app_assoc.
Qed.

End Batch.

End PresentedStoredKey.

Lemma empty_batch_answers_403_witness :
  let w := world_M1 0 (Some "k") [] in
  submitAsyncAction (envelope (Some "k") (Some "M1") (Some [])) w =
  (Ret (), emitted (ERespond 403 (RJson "At least one object is required"))
             (called (EGet "M1") w)).
Proof.
  intros w.
  refine (empty_batch_answers_403 w "M1" "k" 0 _ _ _ _); done.
Defined.

Lemma missing_objectData_answers_403_witness :
  let w := world_M1 10 (Some "k") [] in
  submitAsyncAction (envelope (Some "k") (Some "M1") None) w =
  (Ret (), emitted (ERespond 403 (RJson "Internal Server Error")) (called (EGet "M1") w)).
Proof.
  intros w.
  refine (missing_objectData_answers_403 w "M1" "k" 10 _ _ _ _); done.
Defined.

Lemma accepted_request_run_witness :
  let w := world_M1 10 (Some "k") [] in
  let req := envelope (Some "k") (Some "M1") (Some ["a"; "b"; "c"]) in
  let f := artifact_name (Some "M1") (now w) in
  let w' := (submitAsyncAction req w).2 in
  new_events w w' =
    [EGet "M1"; EGet "M1"; EUpdate "M1" (10 - 3 * 2); ESave f (body req); ack;
     EPost (notification f)] ∧
  docs w' = <["M1" := mkDoc (10 - 3 * 2) (Some "k")]> (docs w).
Proof.
  intros w req f.
  refine (accepted_request_run w "M1" "k" 10 _ _ _ ["a"; "b"; "c"] _ _ _ _).
  - done.
  - done.
  - reflexivity.
  - simpl. lia.
  - apply safe_integer_small. lia.
  - apply calm_nil.
  - reflexivity.
Defined.

Lemma denied_request_run_witness :
  let w := world_M1 4 (Some "k") [] in
  let req := envelope (Some "k") (Some "M1") (Some ["a"; "b"; "c"]) in
  let w' := (submitAsyncAction req w).2 in
  new_events w w' =
    [EGet "M1"; EGet "M1"; ERespond 403 (RJson (quota_exceeded_message 3 4))] ∧
  docs w' = docs w.
Proof.
  intros w req.
  refine (denied_request_run w "M1" "k" 4 _ _ _ ["a"; "b"; "c"] _ _ _).
  - done.
  - done.
  - reflexivity.
  - simpl. lia.
  - apply calm_nil.
  - simpl. unfold serviceCostPerLead. lia.
Defined.

Lemma failed_blob_write_keeps_debit_witness :
  let w := world_M1 10 (Some "k") [false; false; false; true] in
  let req := envelope (Some "k") (Some "M1") (Some ["a"; "b"; "c"]) in
  let f := artifact_name (Some "M1") (now w) in
  let w' := (submitAsyncAction req w).2 in
  new_events w w' =
    [EGet "M1"; EGet "M1"; EUpdate "M1" (10 - 3 * 2); ESave f (body req);
     EUnhandledRejection BlobError] ∧
  responses (new_events w w') = [] ∧
  docs w' !! "M1" = Some (mkDoc (10 - 3 * 2) (Some "k")).
Proof.
  intros w req f.
  refine (failed_blob_write_keeps_debit w "M1" "k" 10 _ _ _ ["a"; "b"; "c"] _ _ [] _ _).
  - done.
  - done.
  - reflexivity.
  - simpl. lia.
  - apply safe_integer_small. lia.
  - reflexivity.
  - reflexivity.
Defined.

Lemma ledger_store_error_answers_403_witness :
  let w := world_M1 10 (Some "k") [false; false; true] in
  let req := envelope (Some "k") (Some "M1") (Some ["a"; "b"; "c"]) in
  let w' := (submitAsyncAction req w).2 in
  responses (new_events w w') = [ERespond 403 (RJson "Internal Server Error")] ∧
  docs w' = docs w.
Proof.
  intros w req.
  refine (ledger_store_error_answers_403 w "M1" "k" 10 _ _ _ ["a"; "b"; "c"] _ [] _ _).
  - done.
  - done.
  - reflexivity.
  - simpl. lia.
  - apply serialisable_world_M1.
  - right. split; reflexivity.
Defined.

(** ** Request handler: every request *)

(** The two kinds of run.  Either no document changes and the only thing
    done outside the document store is one response, a 500, a 401 or a 403,
    or the rejection of the quota check that nobody awaits; or the account
    of the request is debited the cost of its batch, and what follows
    outside the store starts with the blob write of the request body. *)
Lemma submitAsyncAction_cases req w :
  let w' := (submitAsyncAction req w).2 in
  let evs := outside_store (new_events w w') in
  (docs w' = docs w ∧
   (evs = [EConsoleError TypeError; internal_server_error] ∨
    (∃ msg, evs = [ERespond 401 (RJson msg)]) ∨
    (∃ msg, evs = [ERespond 403 (RJson msg)]) ∨
    evs = [EUnhandledRejection TypeError])) ∨
  (∃ id data doc rest,
     let c := Z.of_nat (length data) * serviceCostPerLead in
     let f := artifact_name (Some id) (now w) in
     subscription_of req = Some (mkSubscription (Some id)) ∧
     objectData (body req) = Some data ∧
     docs w !! id = Some doc ∧ 0 < c ∧ c < quota doc ∧
     docs w' = <[id := mkDoc (js_minus (quota doc) c) (ssfs_account_api_key doc)]> (docs w) ∧
     evs = (ESave f (body req) :: rest)%list ∧
     (rest = [EUnhandledRejection BlobError] ∨
      rest = [ack; EPost (notification f)] ∨
      rest = [ack; EPost (notification f); EUnhandledRejection NetworkError])).
Proof.
  cbv zeta.
  destruct (subscription_of req) as [sub|] eqn:Hsub.
  2:{ left. rewrite submitAsyncAction_throws by done. simpl. split; [done|]. left.
      rewrite (new_events_app _ _ [EConsoleError TypeError; internal_server_error]); [done|].
      simpl. by rewrite <- app_assoc. }
  unfold submitAsyncAction, try_catch. rewrite (authMiddleware_eq _ _ _ sub) by done.
  destruct (getUserApiKey_run (munchkinId sub) w)
    as (o & w1 & evs0 & -> & Htr0 & Hdocs0 & Hnow0 & Hout0 & _ & [-> | [key ->]]).
  { left. simpl. split; [done|]. left.
    erewrite (new_events_app _ _ (evs0 ++ [_; _])); [|simpl; by rewrite Htr0, <- !app_assoc].
    by rewrite outside_store_app, Hout0. }
  destruct (falsy (x_api_key req)).
  { left. simpl. split; [done|]. right; left. eexists.
    erewrite (new_events_app _ _ (evs0 ++ [_])); [|simpl; by rewrite Htr0, <- app_assoc].
    by rewrite outside_store_app, Hout0. }
  case_bool_decide.
  { left. simpl. split; [done|]. right; left. eexists.
    erewrite (new_events_app _ _ (evs0 ++ [_])); [|simpl; by rewrite Htr0, <- app_assoc].
    by rewrite outside_store_app, Hout0. }
  unfold detach. rewrite (handler_callback_eq _ _ sub) by done.
  destruct (checkQuota_outside_store (munchkinId sub) (objectData (body req)) w1)
    as (oq & w2 & evs1 & Hrun & Htr1 & Hout1 & Hoq).
  assert (now w2 = now w1) as Hnow1.
  { destruct (checkQuota_run (munchkinId sub) (objectData (body req)) w1)
      as (oq' & w2' & ? & Hrun' & _ & ? & _).
    rewrite Hrun in Hrun'. by injection Hrun' as <- <-. }
  rewrite Hrun. destruct Hoq as [-> | [q ->]].
  { left. simpl. split.
    - rewrite <- Hdocs0. by apply (checkQuota_refused_docs _ _ _ _ _ Hrun).
    - do 3 right.
      erewrite (new_events_app _ _ (evs0 ++ evs1 ++ [_]));
        [|simpl; by rewrite Htr1, Htr0, <- !app_assoc].
      by rewrite !outside_store_app, Hout0, Hout1. }
  destruct (not_allowed q) eqn:Hq.
  { left. simpl. split.
    - rewrite <- Hdocs0. apply (checkQuota_refused_docs _ _ _ _ _ Hrun).
      intros d [= <-] Ha. unfold not_allowed in Hq. by rewrite Ha in Hq.
    - do 2 right; left. eexists.
      erewrite (new_events_app _ _ (evs0 ++ evs1 ++ [_]));
        [|simpl; by rewrite Htr1, Htr0, <- !app_assoc].
      by rewrite !outside_store_app, Hout0, Hout1. }
  assert (allowed q = Some true) as Ha.
  { unfold not_allowed in Hq. by destruct (allowed q) as [[]|]. }
  apply checkQuota_allowed_inv in Hrun
    as (id & data & doc & Hid & Hdata & Hn & Hdoc & HQ & _ & Hdocs1 & _); [|done].
  apply truthy_inv in Hid as [Hmid _].
  right. exists id, data, doc. rewrite Hnow1, Hnow0, Hmid. rewrite Hdocs0 in Hdoc, Hdocs1.
  assert (sub = mkSubscription (Some id)) as Hsub'.
  { destruct sub. simpl in Hmid. by rewrite Hmid. }
  rewrite Hsub'.
  cbv zeta. unfold serviceCostPerLead in *. destruct (next_fault w2).
  { eexists. simpl. repeat (split; [done || lia|]).
    erewrite (new_events_app _ _ (evs0 ++ evs1 ++ [_; _]));
      [|simpl; by rewrite Htr1, Htr0, <- !app_assoc].
    rewrite !outside_store_app, Hout0, Hout1. split; [reflexivity|]. by left. }
  destruct (next_fault _).
  { eexists. simpl. repeat (split; [done || lia|]).
    erewrite (new_events_app _ _ (evs0 ++ evs1 ++ [_; _; _; _]));
      [|simpl; by rewrite Htr1, Htr0, <- !app_assoc].
    rewrite !outside_store_app, Hout0, Hout1. split; [reflexivity|]. by do 2 right. }
  eexists. simpl. repeat (split; [done || lia|]).
  erewrite (new_events_app _ _ (evs0 ++ evs1 ++ [_; _; _]));
    [|simpl; by rewrite Htr1, Htr0, <- !app_assoc].
  rewrite !outside_store_app, Hout0, Hout1. split; [reflexivity|]. right; by left.
Qed.

(** X14. With every stored quota a safe integer (magnitude below 2^53), a
    request that was acknowledged with the 201 was paid for and stored: its
    account held more than the cost of the batch and now holds that much
    less, and outside the document store the run did, in this order, the
    blob write of the request body, the 201, and the POST naming the file
    written. *)
Theorem acknowledged_request_was_debited req w :
  let w' := (submitAsyncAction req w).2 in
  quotas_safe (docs w) →
  ack ∈ new_events w w' →
  ∃ id data doc rest,
    let c := Z.of_nat (length data) * serviceCostPerLead in
    let f := artifact_name (Some id) (now w) in
    subscription_of req = Some (mkSubscription (Some id)) ∧
    objectData (body req) = Some data ∧
    docs w !! id = Some doc ∧ 0 < c ∧ c < quota doc ∧
    docs w' = <[id := mkDoc (quota doc - c) (ssfs_account_api_key doc)]> (docs w) ∧
    outside_store (new_events w w')
      = (ESave f (body req) :: ack :: EPost (notification f) :: rest)%list.
Proof.
  intros w' Hsafe Hack. subst w'.
  assert (ack ∈ outside_store (new_events w (submitAsyncAction req w).2)) as Hout.
  { apply list_elem_of_filter. done. }
  destruct (submitAsyncAction_cases req w) as [[_ Hevs] | Hpaid].
  - exfalso.
    destruct Hevs as [Hevs | [[msg Hevs] | [[msg Hevs] | Hevs]]]; rewrite Hevs in Hout.
    all: repeat (apply elem_of_cons in Hout as [Hout|Hout]; [discriminate Hout|]).
    all: by apply not_elem_of_nil in Hout.
  - destruct Hpaid as (id & data & doc & rest & Hsub & Hdata & Hdoc & Hc & HQ & Hdocs & Hevs & Hrest).
    simpl in Hevs. rewrite Hevs in Hout.
    rewrite js_minus_safe in Hdocs by (done || by apply (Hsafe id)).
    destruct Hrest as [-> | [-> | ->]].
    + exfalso.
      repeat (apply elem_of_cons in Hout as [Hout|Hout]; [discriminate Hout|]).
      by apply not_elem_of_nil in Hout.
    + by exists id, data, doc, [].
    + by exists id, data, doc, [EUnhandledRejection NetworkError].
Qed.

Lemma acknowledged_request_was_debited_witness :
  let w := world_M1 10 (Some "k") [] in
  let req := request (Some "k") (Some "M1") ["a"; "b"; "c"] in
  let w' := (submitAsyncAction req w).2 in
  ∃ id data doc rest,
    let c := Z.of_nat (length data) * serviceCostPerLead in
    let f := artifact_name (Some id) (now w) in
    subscription_of req = Some (mkSubscription (Some id)) ∧
    objectData (body req) = Some data ∧
    docs w !! id = Some doc ∧ 0 < c ∧ c < quota doc ∧
    docs w' = <[id := mkDoc (quota doc - c) (ssfs_account_api_key doc)]> (docs w) ∧
    outside_store (new_events w w')
      = (ESave f (body req) :: ack :: EPost (notification f) :: rest)%list.
Proof.
  intros w req w'.
  refine (acknowledged_request_was_debited req w _ _).
  - apply quotas_safe_singleton, safe_integer_small. lia.
  - vm_compute. do 4 apply list_elem_of_further. apply list_elem_of_here.
Defined.

(** X15. A request answered with a status other than 201 changed no
    document, wrote no blob and posted nothing downstream. *)
Theorem refused_request_changes_nothing req w s b :
  let w' := (submitAsyncAction req w).2 in
  ERespond s b ∈ new_events w w' →
  s ≠ 201 →
  docs w' = docs w ∧
  ∀ e, e ∈ new_events w w' → ∀ f c p, e ≠ ESave f c ∧ e ≠ EPost p.
Proof.
  intros w' Hresp Hs. subst w'.
  assert (ERespond s b ∈ outside_store (new_events w (submitAsyncAction req w).2)) as Hout.
  { apply list_elem_of_filter. done. }
  destruct (submitAsyncAction_cases req w) as [[Hdocs Hevs] | Hpaid].
  - split; [done|]. intros e He f c p.
    assert (is_store_call e = false →
            e ∈ outside_store (new_events w (submitAsyncAction req w).2)) as Hin.
    { intros Hns. apply list_elem_of_filter. done. }
    split; intros ->; specialize (Hin eq_refl).
    all: destruct Hevs as [Hevs | [[msg Hevs] | [[msg Hevs] | Hevs]]]; rewrite Hevs in Hin.
    all: repeat (apply elem_of_cons in Hin as [Hin|Hin]; [discriminate Hin|]).
    all: by apply not_elem_of_nil in Hin.
  - exfalso.
    destruct Hpaid as (id & data & doc & rest & _ & _ & _ & _ & _ & _ & Hevs & Hrest).
    simpl in Hevs. rewrite Hevs in Hout.
    destruct Hrest as [-> | [-> | ->]].
    all: repeat (apply elem_of_cons in Hout as [Hout|Hout];
                 [try discriminate Hout; injection Hout as -> _; done|]).
    all: by apply not_elem_of_nil in Hout.
Qed.

Lemma refused_request_changes_nothing_witness :
  let w := world_M1 4 (Some "k") [] in
  let req := request (Some "k") (Some "M1") ["a"; "b"; "c"] in
  let w' := (submitAsyncAction req w).2 in
  docs w' = docs w ∧
  ∀ e, e ∈ new_events w w' → ∀ f c p, e ≠ ESave f c ∧ e ≠ EPost p.
Proof.
  intros w req w'.
  refine (refused_request_changes_nothing req w 403 (RJson (quota_exceeded_message 3 4)) _ _).
  - vm_compute. do 2 apply list_elem_of_further. apply list_elem_of_here.
  - done.
Defined.

(** X16. A request without [munchkinId] (absent or empty) never reaches the
    store: neither the accessor nor the ledger issues a call.  It is
    answered 401, unless its header is the text [[object Object]], in which
    case the ledger answers 403 [subscriptionId is required]. *)
Theorem request_without_munchkinId req w sub :
  subscription_of req = Some sub →
  truthy (munchkinId sub) = None →
  ∃ s msg,
    submitAsyncAction req w = (Ret (), emitted (ERespond s (RJson msg)) w) ∧
    (s = 401 ∧ x_api_key req ≠ Some "[object Object]" ∨
     s = 403 ∧ msg = "subscriptionId is required" ∧ x_api_key req = Some "[object Object]").
Proof.
  intros Hsub Hmid. unfold submitAsyncAction, try_catch.
  rewrite (authMiddleware_eq _ _ _ sub) by done.
  rewrite getUserApiKey_eq, Hmid. simpl template_key.
  destruct (falsy (x_api_key req)) eqn:Hfalsy.
  { eexists _, _. split; [reflexivity|]. left. split; [done|].
    intros Hhdr. by rewrite Hhdr in Hfalsy. }
  case_bool_decide as Hhdr.
  { eexists _, _. split; [reflexivity|]. by left. }
  unfold detach. rewrite (handler_callback_eq _ _ sub) by done.
  rewrite checkQuota_eq, Hmid. simpl.
  eexists _, _. split; [reflexivity|]. by right.
Qed.

Lemma request_without_munchkinId_witness :
  let req := request (Some "[object Object]") None ["a"] in
  let w := world_M1 10 (Some "k") [] in
  ∃ s msg,
    submitAsyncAction req w = (Ret (), emitted (ERespond s (RJson msg)) w) ∧
    (s = 401 ∧ x_api_key req ≠ Some "[object Object]" ∨
     s = 403 ∧ msg = "subscriptionId is required" ∧ x_api_key req = Some "[object Object]").
Proof.
  intros req w.
  refine (request_without_munchkinId req w (mkSubscription None) _ _); reflexivity.
Defined.

Lemma notification_follows_ack_witness :
  let w := world_M1 10 (Some "k") [] in
  let req := request (Some "k") (Some "M1") ["a"; "b"; "c"] in
  let p := notification "ssfs-ethan-oct16/M1/data-1700000000000.json" in
  let evs := new_events w (submitAsyncAction req w).2 in
  responses evs = [ack] ∧
  ∃ f b rest,
    outside_store evs = (ESave f b :: ack :: EPost p :: rest)%list ∧
    (rest = [] ∨ rest = [EUnhandledRejection NetworkError]).
Proof.
  intros w req p.
  refine (notification_follows_ack req w p _).
  vm_compute. do 5 apply list_elem_of_further. apply list_elem_of_here.
Defined.

Lemma console_error_only_before_gate_witness :
  let w := world_M1 10 (Some "k") [] in
  let req := mkRequest (Some "k") (mkBody None (Some ["a"])) in
  outside_store (new_events w (submitAsyncAction req w).2)
  = [EConsoleError TypeError; internal_server_error] ∧
  (subscription_of req = None ∨
   ∃ sub id, subscription_of req = Some sub ∧ munchkinId sub = Some id ∧ id ≠ "" ∧
             next_fault w = true ∧ next_opaque w = true).
Proof.
  intros w req.
  refine (console_error_only_before_gate req w TypeError _).
  left. vm_compute. apply list_elem_of_here.
Defined.

Lemma request_without_header_has_no_side_effects_witness :
  let w := world_M1 10 (Some "k") [] in
  let req := request None (Some "M1") ["a"; "b"; "c"] in
  let w' := (submitAsyncAction req w).2 in
  docs w' = docs w ∧ ∀ e, e ∈ new_events w w' → is_side_effect e = false.
Proof.
  intros w req.
  refine (request_without_header_has_no_side_effects req w _). reflexivity.
Defined.

(** ** Overlapping calls of the ledger *)





(** ** The name of the stored artifact *)

Lemma string_length_app s1 s2 :
  String.length (s1 +:+ s2) = (String.length s1 + String.length s2)%nat.
Proof. induction s1 as [|a s1 IH]; simpl; [done|]. by rewrite IH. Qed.

Lemma string_app_inj_r x s1 s2 : s1 +:+ x = s2 +:+ x → s1 = s2.
Proof.
  revert s2. induction s1 as [|a s1 IH]; intros [|b s2] Heq; simpl in Heq.
  - done.
  - apply (f_equal String.length) in Heq.
    rewrite !string_length_app in Heq. simpl in Heq. lia.
  - apply (f_equal String.length) in Heq.
    rewrite !string_length_app in Heq. simpl in Heq. lia.
  - injection Heq as -> Heq. f_equal. by apply IH.
Qed.

(** X21. For one account, the artifact name determines the clock value: two
    requests overwrite each other's artifact only when [Date.now()] gave
    them the same millisecond. *)
Theorem artifact_name_inj id t1 t2 :
  artifact_name id t1 = artifact_name id t2 → t1 = t2.
Proof.
  unfold artifact_name. intros Heq.
  do 4 apply (inj (String.app _)) in Heq.
  apply string_app_inj_r in Heq. by apply (inj pretty) in Heq.
Qed.

Lemma artifact_name_inj_witness :
  (1700000000000 : Z) = 1700000000000.
Proof.
  refine (artifact_name_inj (Some "M1") 1700000000000 1700000000000 _). reflexivity.
Defined.
